(** * reststd: the request-interception pipeline of the HTTP server shell

    A shallow embedding of the Go program (the version with the
    [RequestLogger] builder, [RecoveryMiddleware], [LoggerMiddleware] and the
    signal-driven shutdown in [main]) and the proofs of its specification.

    Conventions of the embedding:
    - a Go [string] is a Rocq [string]: a sequence of bytes, [len] is
      [String.length];
    - a Go [int] is a [Z]; where the program does arithmetic on it the 64-bit
      wrap-around is written out ([wrap64]);
    - a [float64] is a [spec_float] of the IEEE-754 binary64 format
      (precision 53, emax 1024), with the conversions and [math.Max] written
      on it;
    - an [interface{}] value reaching a formatter or [recover] is a small
      inductive type naming the dynamic types the program distinguishes;
    - effects (the log, the response sink, the recorder's [Status] field, the
      clock, a panic in flight) are threaded through a state-and-panic monad;
    - the program runs on the Go runtime with its defaults, where the value
      recovered from [panic(nil)] is a [*runtime.PanicNilError]
      ([scripted_on false]); the setting under which [recover()] yields nil
      for it is kept for the statements that speak of a nil recovered value
      ([scripted], which is [scripted_on true]).
*)

From Stdlib Require Import ZArith Lia Bool List Ascii DecimalString.
From Stdlib Require Import Floats.SpecFloat.
From stdpp Require Import base list strings.

#[local] Open Scope Z_scope.

(** ** Strings of the Go runtime *)

Module GoString.

(** [len(s)]: the number of bytes, as an [int]. *)
Definition len (s : string) : Z := Z.of_nat (String.length s).

(** [strings.Repeat(s, count)].  [Repeat] is the string the call returns when
    it returns; [Repeat_call] below is the call itself, with its panic on a
    negative count. *)
Fixpoint repeat_nat (s : string) (n : nat) : string :=
  match n with
  | O => EmptyString
  | S k => s +:+ repeat_nat s k
  end.

Definition Repeat (s : string) (count : Z) : string :=
  repeat_nat s (Z.to_nat count).

(** The call [strings.Repeat(s, count)]: [None] is its panic ("strings:
    negative Repeat count").  The other panic of the function, on an output
    length beyond the [int] range, cannot happen for the one-byte string and
    the counts of this program, all below [2^63 - 1]; running out of memory
    is not modelled. *)
Definition Repeat_call (s : string) (count : Z) : option string :=
  if count <? 0 then None else Some (Repeat s count).

(** The escape byte that opens a terminal colour sequence (octal 033). *)
Definition ESC : string := String (ascii_of_nat 27) EmptyString.

(** Decimal rendering of an integer, as [fmt.Sprint] and the verb [%d]
    print it. *)
Definition Itoa (n : Z) : string := NilZero.string_of_int (Z.to_int n).

End GoString.
Import GoString.

(** ** The colour palette *)

Record Colors := {
  Red : string;
  Green : string;
  Yellow : string;
  Blue : string;
  Magenta : string;
  Cyan : string;
  Reset : string
}.

Definition colors : Colors := {|
  Red := ESC +:+ "[31m";
  Green := ESC +:+ "[32m";
  Yellow := ESC +:+ "[33m";
  Blue := ESC +:+ "[34m";
  Magenta := ESC +:+ "[35m";
  Cyan := ESC +:+ "[36m";
  Reset := ESC +:+ "[0m"
|}.

(** [GetStatusColor]: the [switch] of the source, case by case in order. *)
Definition GetStatusColor (status : Z) : string :=
  if (100 <=? status) && (status <? 200) then Cyan colors
  else if (200 <=? status) && (status <? 300) then Green colors
  else if (300 <=? status) && (status <? 400) then Yellow colors
  else if (400 <=? status) && (status <? 500) then Magenta colors
  else Red colors.

(** ** [float64], as far as [pad] uses it

    [pad] computes its repeat count as
    [int(math.Max(float64(padding-len(v)), 0))]: an [int] is converted to the
    nearest binary64 value, compared with zero, and converted back by
    truncation. *)

Module Float64.

Definition prec : Z := 53.
Definition emax : Z := 1024.

Definition float64 : Type := spec_float.

Definition min_int64 : Z := - 2 ^ 63.
Definition max_int64 : Z := 2 ^ 63 - 1.

(** Two's complement wrap-around of 64-bit [int] arithmetic. *)
Definition wrap64 (z : Z) : Z := (z + 2 ^ 63) mod 2 ^ 64 - 2 ^ 63.

(** [float64(x)] for an integer [x]: round to nearest, ties to even. *)
Definition of_int (x : Z) : float64 := binary_normalize prec emax x 0 false.

Definition IsNaN (f : float64) : bool :=
  match f with S754_nan => true | _ => false end.

Definition IsPosInf (f : float64) : bool :=
  match f with S754_infinity false => true | _ => false end.

Definition IsZero (f : float64) : bool :=
  match f with S754_zero _ => true | _ => false end.

Definition Signbit (f : float64) : bool :=
  match f with
  | S754_zero s | S754_infinity s | S754_finite s _ _ => s
  | S754_nan => false
  end.

(** [math.Max(x, y)], with the special cases of Go's [math] package in their
    order: an operand that is +Inf, an operand that is NaN, two zeros. *)
Definition Max (x y : float64) : float64 :=
  if IsPosInf x || IsPosInf y then S754_infinity false
  else if IsNaN x || IsNaN y then S754_nan
  else if IsZero x && IsZero y then (if Signbit x then y else x)
  else if SFltb y x then x else y.

(** [int(f)]: the fraction is discarded (truncation towards zero).  A value
    that does not fit an [int] (and NaN, and the infinities) converts to the
    most negative [int], as the amd64 conversion instruction does. *)
Definition to_int (f : float64) : Z :=
  match f with
  | S754_zero _ => 0
  | S754_finite s m e =>
      let mag := if 0 <=? e then Z.pos m * 2 ^ e else Z.pos m / 2 ^ (- e) in
      let v := if s then - mag else mag in
      if (min_int64 <=? v) && (v <=? max_int64) then v else min_int64
  | S754_infinity _ | S754_nan => min_int64
  end.

(** [f] is a zero, a finite value or an infinity of sign [sx]. *)
Definition signed (sx : bool) (f : float64) : Prop :=
  match f with
  | S754_zero s | S754_infinity s | S754_finite s _ _ => s = sx
  | S754_nan => False
  end.

End Float64.

(** ** [time.Duration] and its [String] method

    A [Duration] is a count of nanoseconds.  [Duration.String] follows the
    [String] method of Go's [time] package: below one second the largest unit
    among ns, µs and ms that leaves a non-zero integer part, above it
    [h], [m] and [s]; the fraction loses its trailing zeros. *)

Module Duration.

Definition Duration : Type := Z.

Definition Microsecond : Z := 1000.
Definition Millisecond : Z := 1000 * Microsecond.
Definition Second : Z := 1000 * Millisecond.

Definition digit (d : Z) : ascii := ascii_of_nat (48 + Z.to_nat d).

(** [fmtFrac(buf, v, prec)]: the fraction of [v / 10^prec] written before
    [acc], without trailing zeros and without the point when it is zero, and
    the integer part. *)
Fixpoint fmtFrac (prec : nat) (v : Z) (print : bool) (acc : string)
  : string * Z :=
  match prec with
  | O => (if print then String "." acc else acc, v)
  | S p =>
      let d := v mod 10 in
      let print' := print || negb (d =? 0) in
      fmtFrac p (v / 10) print' (if print' then String (digit d) acc else acc)
  end.

Definition fmtInt (v : Z) : string := Itoa v.

(** The micro sign, two bytes in UTF-8. *)
Definition micro : string :=
  String (ascii_of_nat 194) (String (ascii_of_nat 181) EmptyString).

Definition String (d : Duration) : string :=
  let u := Z.abs d in
  let body :=
    if u <? Second then
      if u =? 0 then "0s"
      else
        let '(prec, unit_) :=
          if u <? Microsecond then (0%nat, "ns")
          else if u <? Millisecond then (3%nat, micro +:+ "s")
          else (6%nat, "ms") in
        let '(frac, u1) := fmtFrac prec u false unit_ in
        fmtInt u1 +:+ frac
    else
      let '(frac, u1) := fmtFrac 9 u false "s" in
      let secs := fmtInt (u1 mod 60) +:+ frac in
      let u2 := u1 / 60 in
      if 0 <? u2 then
        let mins := fmtInt (u2 mod 60) +:+ "m" +:+ secs in
        let u3 := u2 / 60 in
        if 0 <? u3 then fmtInt u3 +:+ "h" +:+ mins else mins
      else secs in
  if d <? 0 then "-" +:+ body else body.

End Duration.

(** ** [fmt]: the operands and the two formatters the program calls *)

(** The values the program hands to [fmt.Sprint] through [interface{}]. *)
Inductive Value : Type :=
| VString (s : string)
| VInt (n : Z)
| VDuration (d : Duration.Duration).

(** [fmt.Sprint(value)] on one operand: a string as it is, an [int] in
    decimal, a [Duration] through its [String] method. *)
Definition Sprint (value : Value) : string :=
  match value with
  | VString s => s
  | VInt n => Itoa n
  | VDuration d => Duration.String d
  end.

(** What [fmt] appends for operands no verb consumed. *)
Fixpoint extra_operands (args : list string) : string :=
  match args with
  | [] => ""
  | [a] => "string=" +:+ a
  | a :: rest => "string=" +:+ a +:+ ", " +:+ extra_operands rest
  end.

Definition Sprintf_extra (args : list string) : string :=
  match args with
  | [] => ""
  | _ => "%!(EXTRA " +:+ extra_operands args +:+ ")"
  end.

(** [fmt.Sprintf(format, args...)] for string operands: [%s] and [%v] print
    the next operand, [%%] a percent sign; a verb without operand, an operand
    without verb, another verb and a trailing [%] print [fmt]'s error
    markers. *)
Fixpoint Sprintf (format : string) (args : list string) : string :=
  match format with
  | EmptyString => Sprintf_extra args
  | String "%" rest =>
      match rest with
      | EmptyString => "%!(NOVERB)" +:+ Sprintf_extra args
      | String "%" rest' => String "%" (Sprintf rest' args)
      | String c rest' =>
          match args with
          | [] => "%!" +:+ String c "(MISSING)" +:+ Sprintf rest' []
          | a :: args' =>
              (if (Ascii.eqb c "s" || Ascii.eqb c "v")%bool then a
               else "%!" +:+ String c "(string=" +:+ a +:+ ")")
              +:+ Sprintf rest' args'
          end
      end
  | String c rest => String c (Sprintf rest args)
  end.

(** ** The request logger *)

Record RequestLogger := {
  method : string;
  status : Z;
  since : Duration.Duration;
  path : string;
  color : string
}.

(** A value caught by [recover()] or handed to [PanicString]: the nil
    interface, a value whose dynamic type implements [error] (with the text
    its [Error] method returns), or a value of another dynamic type (with a
    rendering of it, which the program never reads). *)
Inductive Any : Type :=
| any_nil
| any_error (msg : string)
| any_other (repr : string).

Module RequestLogger.

(** [&RequestLogger{}]: every field at its zero value. *)
Definition NewRequestLoggerBuilder : RequestLogger :=
  {| method := ""; status := 0; since := 0; path := ""; color := "" |}.

(** The setters assign through the pointer and return it; the builder value
    has no other holder, so each is the record with one field (two for
    [SetStatus]) replaced. *)
Definition SetMethod (m : string) (rl : RequestLogger) : RequestLogger :=
  {| method := m; status := status rl; since := since rl; path := path rl;
     color := color rl |}.

Definition SetPath (p : string) (rl : RequestLogger) : RequestLogger :=
  {| method := method rl; status := status rl; since := since rl; path := p;
     color := color rl |}.

Definition SetSince (d : Duration.Duration) (rl : RequestLogger)
  : RequestLogger :=
  {| method := method rl; status := status rl; since := d; path := path rl;
     color := color rl |}.

Definition SetStatus (st : Z) (rl : RequestLogger) : RequestLogger :=
  {| method := method rl; status := st; since := since rl; path := path rl;
     color := GetStatusColor st |}.

Definition GetMethod (rl : RequestLogger) : string := method rl.
Definition GetStatus (rl : RequestLogger) : Z := status rl.
Definition GetSince (rl : RequestLogger) : Duration.Duration := since rl.
Definition GetPath (rl : RequestLogger) : string := path rl.

(** [pad]: the repeat count is [padding - len(v)] taken through [float64]
    and [math.Max] with zero, then back to [int]. *)
Definition pad (rl : RequestLogger) (padding : Z) (value : Value) : string :=
  let v := Sprint value in
  let r :=
    Float64.to_int
      (Float64.Max (Float64.of_int (Float64.wrap64 (padding - len v)))
                   (Float64.of_int 0)) in
  v +:+ Repeat " " r.

(** The call [rl.pad(padding, value)], with the panic of [strings.Repeat]:
    [None] when the count that comes back from [float64] is negative, which
    is what the conversion yields for a [float64] at or above [2^63].  [pad]
    above is the string the call returns when it returns. *)
Definition pad_call (rl : RequestLogger) (padding : Z) (value : Value)
  : option string :=
  let v := Sprint value in
  let r :=
    Float64.to_int
      (Float64.Max (Float64.of_int (Float64.wrap64 (padding - len v)))
                   (Float64.of_int 0)) in
  match Repeat_call " " r with
  | Some spaces => Some (v +:+ spaces)
  | None => None
  end.

Definition padAndColor (rl : RequestLogger) (padding : Z) (value : Value)
  : string :=
  if 0 <? padding then
    (color rl +:+ pad rl padding (VString (Sprint value))) +:+ Reset colors
  else (color rl +:+ Sprint value) +:+ Reset colors.

Definition PanicString (rl : RequestLogger) (err : Any) : string :=
  let stringer (e : string) : string :=
    let coloredError := (color rl +:+ e) +:+ Reset colors in
    let tmpl := "| %s | %s |             | %s %s" in
    Sprintf tmpl
      [ padAndColor rl 7 (VString (GetMethod rl));
        padAndColor rl 0 (VInt (GetStatus rl));
        GetPath rl;
        coloredError ] in
  match err with
  | any_error msg => stringer msg
  | any_nil | any_other _ => stringer "Unknown"
  end.

Definition String (rl : RequestLogger) : string :=
  Sprintf "| %s | %s | %s | %s"
    [ padAndColor rl 7 (VString (GetMethod rl));
      padAndColor rl 0 (VInt (GetStatus rl));
      pad rl 12 (VDuration (GetSince rl));
      GetPath rl ].

End RequestLogger.

(** ** Builder call sequences

    A logger is built by a chain of setter calls on [NewRequestLoggerBuilder];
    the chain is kept as data to speak of the calls that were, or were not,
    made. *)

Inductive Setter : Type :=
| CallSetMethod (m : string)
| CallSetPath (p : string)
| CallSetSince (d : Duration.Duration)
| CallSetStatus (st : Z).

Definition apply_setter (rl : RequestLogger) (c : Setter) : RequestLogger :=
  match c with
  | CallSetMethod m => RequestLogger.SetMethod m rl
  | CallSetPath p => RequestLogger.SetPath p rl
  | CallSetSince d => RequestLogger.SetSince d rl
  | CallSetStatus st => RequestLogger.SetStatus st rl
  end.

Definition build (cs : list Setter) : RequestLogger :=
  fold_left apply_setter cs RequestLogger.NewRequestLoggerBuilder.

Definition sets_status (c : Setter) : bool :=
  match c with CallSetStatus _ => true | _ => false end.

(** No call of the chain is a [SetStatus]. *)
Definition status_never_set (cs : list Setter) : bool :=
  forallb (fun c => negb (sets_status c)) cs.

(** The steady-state line as the specification words it: the method plain and
    padded to 7, the status alone between colour markers and unpadded, the
    elapsed time padded to 12, the path plain.  It is compared with
    [RequestLogger.String] below. *)
Definition String_as_specified (rl : RequestLogger) : string :=
  "| " +:+ RequestLogger.pad rl 7 (VString (method rl)) +:+
  " | " +:+ color rl +:+ Itoa (status rl) +:+ Reset colors +:+
  " | " +:+ RequestLogger.pad rl 12 (VDuration (since rl)) +:+
  " | " +:+ path rl.

(** The description a fault line carries: the message of an error, the
    token [Unknown] for anything else. *)
Definition description (err : Any) : string :=
  match err with
  | any_error msg => msg
  | any_nil | any_other _ => "Unknown"
  end.

(** The fault line as the specification words it: the method and status
    columns of [String()], the blank elapsed-time column, the path, and the
    description wrapped in the colour selected by the status class of the
    logger's status.  It is compared with [RequestLogger.PanicString]
    below. *)
Definition PanicString_as_specified (rl : RequestLogger) (err : Any)
  : string :=
  "| " +:+ RequestLogger.padAndColor rl 7 (VString (method rl)) +:+
  " | " +:+ RequestLogger.padAndColor rl 0 (VInt (status rl)) +:+
  " |" +:+ Repeat " " 13 +:+ "| " +:+ path rl +:+
  " " +:+ (GetStatusColor (status rl) +:+ description err +:+ Reset colors).

(** A logger with each of the four setters called once, in the order of
    [LoggerMiddleware]. *)
Definition populated (m : string) (st : Z) (p : string)
  (d : Duration.Duration) : RequestLogger :=
  build [CallSetMethod m; CallSetStatus st; CallSetPath p; CallSetSince d].

(** ** The HTTP side: requests, the response sink, effects *)

Record Request := {
  Method : string;
  URL_Path : string
}.

Definition StatusOK : Z := 200.
Definition StatusInternalServerError : Z := 500.

(** A call that reached the real [http.ResponseWriter] of the connection. *)
Inductive SinkCall : Type :=
| SinkWriteHeader (st : Z)
| SinkWrite (data : string).

(** What a request can change:
    - [log_lines]: the arguments of [log.Println], oldest first (the date and
      time prefix and the newline that [log] adds are left out);
    - [sink]: the calls received by the real response sink, oldest first;
    - [recorders]: the [Status] field of every [ResponseRecorderWriter]
      allocated so far, by address;
    - [clock]: the monotonic clock, in nanoseconds;
    - [in_flight]: the panic value a deferred call can [recover()]. *)
Record World := {
  log_lines : list string;
  sink : list SinkCall;
  recorders : list Z;
  clock : Z;
  in_flight : option Any
}.

Definition set_log (l : list string) (w : World) : World :=
  {| log_lines := l; sink := sink w; recorders := recorders w;
     clock := clock w; in_flight := in_flight w |}.

Definition set_sink (s : list SinkCall) (w : World) : World :=
  {| log_lines := log_lines w; sink := s; recorders := recorders w;
     clock := clock w; in_flight := in_flight w |}.

Definition set_recorders (r : list Z) (w : World) : World :=
  {| log_lines := log_lines w; sink := sink w; recorders := r;
     clock := clock w; in_flight := in_flight w |}.

Definition set_clock (c : Z) (w : World) : World :=
  {| log_lines := log_lines w; sink := sink w; recorders := recorders w;
     clock := c; in_flight := in_flight w |}.

Definition set_in_flight (p : option Any) (w : World) : World :=
  {| log_lines := log_lines w; sink := sink w; recorders := recorders w;
     clock := clock w; in_flight := p |}.

(** How a call ends: it returns, or it unwinds with a panic value. *)
Inductive Outcome (A : Type) : Type :=
| Returned (a : A)
| Panicking (v : Any).

Arguments Returned {A} a.
Arguments Panicking {A} v.

(** The monad of the embedding: state passing with panics. *)
Definition M (A : Type) : Type := World -> Outcome A * World.

Definition ret {A : Type} (a : A) : M A := fun w => (Returned a, w).

Definition bind {A B : Type} (m : M A) (k : A -> M B) : M B :=
  fun w =>
    match m w with
    | (Returned a, w1) => k a w1
    | (Panicking v, w1) => (Panicking v, w1)
    end.

Notation "x <- m ;; k" := (bind m (fun x => k))
  (at level 100, m at next level, right associativity).
Notation "m ;;; k" := (bind m (fun _ => k))
  (at level 100, right associativity).

(** [panic(v)]. *)
Definition panic {A : Type} (v : Any) : M A := fun w => (Panicking v, w).

(** [recover()]: the value of the panic in flight, which stops unwinding;
    nil when nothing is in flight. *)
Definition recover : M Any :=
  fun w =>
    match in_flight w with
    | Some v => (Returned v, set_in_flight None w)
    | None => (Returned any_nil, w)
    end.

(** [defer deferred(); body]: [deferred] runs when [body] has returned or
    while its panic unwinds.  A panic that [deferred] did not recover, or one
    that it raised, goes on to the caller. *)
Definition defer_ (deferred : M unit) (body : M unit) : M unit :=
  fun w =>
    match body w with
    | (Returned _, w1) => deferred w1
    | (Panicking v, w1) =>
        match deferred (set_in_flight (Some v) w1) with
        | (Returned _, w2) =>
            match in_flight w2 with
            | Some v' => (Panicking v', set_in_flight None w2)
            | None => (Returned tt, w2)
            end
        | (Panicking v', w2) => (Panicking v', set_in_flight None w2)
        end
    end.

(** [log.Println(line)]. *)
Definition log_Println (line : string) : M unit :=
  fun w => (Returned tt, set_log (log_lines w ++ [line]) w).

(** [time.Now()] and [time.Since(start)]. *)
Definition time_Now : M Z := fun w => (Returned (clock w), w).

Definition time_Since (start : Z) : M Duration.Duration :=
  fun w => (Returned (clock w - start), w).

(** The [http.ResponseWriter] interface, as far as the program calls it. *)
Record ResponseWriter := {
  WriteHeader : Z -> M unit;
  Write : string -> M unit
}.

(** The response sink of the connection. *)
Definition client : ResponseWriter := {|
  WriteHeader st :=
    fun w => (Returned tt, set_sink (sink w ++ [SinkWriteHeader st]) w);
  Write data :=
    fun w => (Returned tt, set_sink (sink w ++ [SinkWrite data]) w)
|}.

(** ** The response observer *)

(** A [*ResponseRecorderWriter]: the embedded writer and the address of the
    [Status] field. *)
Record ResponseRecorderWriter := {
  embedded : ResponseWriter;
  addr : nat
}.

Module ResponseRecorderWriter.

(** [&ResponseRecorderWriter{ResponseWriter: w, Status: st}]. *)
Definition new (w : ResponseWriter) (st : Z) : M ResponseRecorderWriter :=
  fun s =>
    (Returned {| embedded := w; addr := length (recorders s) |},
     set_recorders (recorders s ++ [st]) s).

(** [rr.Status]. *)
Definition Status (rr : ResponseRecorderWriter) : M Z :=
  fun s => (Returned (default 0 (recorders s !! addr rr)), s).

(** [rr.Status = st]. *)
Definition set_Status (rr : ResponseRecorderWriter) (st : Z) : M unit :=
  fun s => (Returned tt, set_recorders (<[addr rr := st]> (recorders s)) s).

Definition WriteHeader (rr : ResponseRecorderWriter) (st : Z) : M unit :=
  set_Status rr st ;;;
  WriteHeader (embedded rr) st.

(** The recorder seen through the [http.ResponseWriter] interface:
    [WriteHeader] is the recorder's, [Write] is promoted from the embedded
    writer. *)
Definition as_writer (rr : ResponseRecorderWriter) : ResponseWriter :=
  Build_ResponseWriter (WriteHeader rr) (Write (embedded rr)).

End ResponseRecorderWriter.

(** ** Handlers and middleware *)

Definition Handler : Type := ResponseWriter -> Request -> M unit.

Definition RecoveryMiddleware (next : Handler) : Handler :=
  fun w r =>
    defer_
      (err <- recover ;;
       match err with
       | any_nil => ret tt
       | _ =>
           let rl :=
             RequestLogger.SetPath (URL_Path r)
               (RequestLogger.SetStatus StatusInternalServerError
                  (RequestLogger.SetMethod (Method r)
                     RequestLogger.NewRequestLoggerBuilder)) in
           log_Println (RequestLogger.PanicString rl err) ;;;
           WriteHeader w (RequestLogger.GetStatus rl)
       end)
      (next w r).

Definition LoggerMiddleware (next : Handler) : Handler :=
  fun w r =>
    start <- time_Now ;;
    writer <- ResponseRecorderWriter.new w StatusOK ;;
    next (ResponseRecorderWriter.as_writer writer) r ;;;
    st <- ResponseRecorderWriter.Status writer ;;
    elapsed <- time_Since start ;;
    log_Println
      (RequestLogger.String
         (RequestLogger.SetSince elapsed
            (RequestLogger.SetPath (URL_Path r)
               (RequestLogger.SetStatus st
                  (RequestLogger.SetMethod (Method r)
                     RequestLogger.NewRequestLoggerBuilder))))).

(** [router.Use(mw...)] of gorilla/mux: the middlewares wrap the routed
    handler from the last to the first, so the first listed is outermost. *)
Definition Use (mws : list (Handler -> Handler)) (h : Handler) : Handler :=
  fold_right (fun mw acc => mw acc) h mws.

(** The chain [main] installs: [router.Use(RecoveryMiddleware,
    LoggerMiddleware)]. *)
Definition chain : Handler -> Handler :=
  Use [RecoveryMiddleware; LoggerMiddleware].

(** ** Routed handlers

    A routed handler is an arbitrary function of the program's user.  What it
    does to the pipeline goes through the writer it is given: a sequence of
    [WriteHeader] and [Write] calls, with time passing in between, and then a
    return or a panic.  [panics any_nil] is [panic(nil)] as [recover()]
    reports it where nil panics are not rewritten by the runtime. *)

Inductive Step : Type :=
| CallWriteHeader (st : Z)
| CallWrite (data : string)
| Elapse (ns : Z).

Inductive Ending : Type :=
| returns
| panics (v : Any).

Record Script := {
  steps : list Step;
  ending : Ending
}.

Definition play_step (w : ResponseWriter) (s : Step) : M unit :=
  match s with
  | CallWriteHeader st => WriteHeader w st
  | CallWrite data => Write w data
  | Elapse ns => fun s => (Returned tt, set_clock (clock s + ns) s)
  end.

Fixpoint play (w : ResponseWriter) (l : list Step) : M unit :=
  match l with
  | [] => ret tt
  | s :: rest => play_step w s ;;; play w rest
  end.

Definition finish (e : Ending) : M unit :=
  match e with
  | returns => ret tt
  | panics v => panic v
  end.

Definition scripted (behaviour : Request -> Script) : Handler :=
  fun w r =>
    play w (steps (behaviour r)) ;;;
    finish (ending (behaviour r)).

(** The value of [*runtime.PanicNilError], an [error]. *)
Definition PanicNilError : Any := any_error "panic called with nil argument".

(** What [recover()] reports for [panic(v)].  Since Go 1.21 the runtime
    replaces a nil [v] by a [*runtime.PanicNilError]; it keeps the nil under
    [GODEBUG=panicnil=1] and for a module whose [go] directive is 1.20 or
    older.  The repository sets neither, so the program runs with
    [panicnil = false]. *)
Definition recovered_value (panicnil : bool) (v : Any) : Any :=
  match v with
  | any_nil => if panicnil then any_nil else PanicNilError
  | _ => v
  end.

(** The end of a handler whose script ends in [panic(v)], under the runtime
    setting, and the handler.  [scripted] above is [scripted_on true]: its
    [panics v] is the value as [recover()] reports it. *)
Definition finish_on (panicnil : bool) (e : Ending) : M unit :=
  match e with
  | returns => ret tt
  | panics v => panic (recovered_value panicnil v)
  end.

Definition scripted_on (panicnil : bool) (behaviour : Request -> Script)
  : Handler :=
  fun w r =>
    play w (steps (behaviour r)) ;;;
    finish_on panicnil (ending (behaviour r)).

(** A script as [recover()] sees it under the runtime setting. *)
Definition as_recovered (panicnil : bool) (sc : Script) : Script :=
  {| steps := steps sc;
     ending :=
       match ending sc with
       | returns => returns
       | panics v => panics (recovered_value panicnil v)
       end |}.

(** The statuses a script declares through [WriteHeader], in order. *)
Definition declared (l : list Step) : list Z :=
  omap (fun s => match s with CallWriteHeader st => Some st | _ => None end) l.

(** The calls a script makes on its writer, in order. *)
Definition calls (l : list Step) : list SinkCall :=
  omap (fun s =>
          match s with
          | CallWriteHeader st => Some (SinkWriteHeader st)
          | CallWrite data => Some (SinkWrite data)
          | Elapse _ => None
          end) l.

(** The time a script lets pass. *)
Definition duration (l : list Step) : Z :=
  foldr (fun s acc =>
           match s with Elapse ns => ns + acc | _ => acc end) 0 l.

(** The sink is [net/http]'s response writer, outside the repository.  Its
    [WriteHeader(code)], while no final header was written: panics on a code
    outside 100..999; sends an informational header for a code from 100 to
    199 other than 101 and stays open for the final one; takes any other
    code as the final status.  Once the final header was written, further
    [WriteHeader] calls are dropped.  A [Write] before the final header, and
    a handler that returns without one, send 200. *)
Definition valid_code (st : Z) : bool := (100 <=? st) && (st <=? 999).

Definition informational (st : Z) : bool :=
  (100 <=? st) && (st <=? 199) && negb (st =? 101).

Definition final_code (st : Z) : bool :=
  valid_code st && negb (informational st).

(** The status line the client receives as the response proper, for the
    calls that reached the sink.  It speaks of calls with valid codes: the
    panic of the sink on an invalid code is not part of [client]. *)
Fixpoint sent_status (l : list SinkCall) : Z :=
  match l with
  | SinkWriteHeader st :: rest =>
      if informational st then sent_status rest else st
  | SinkWrite _ :: _ => StatusOK
  | [] => StatusOK
  end.

(** The final header is out: a [Write] or a [WriteHeader] that is not
    informational reached the sink. *)
Definition committed (l : list SinkCall) : bool :=
  existsb (fun c =>
             match c with
             | SinkWriteHeader st => negb (informational st)
             | SinkWrite _ => true
             end) l.

(** ** What a request leaves behind *)

(** The status the observer holds after a script: the last one declared, 200
    when none was. *)
Definition observed_status (l : list Step) : Z :=
  default StatusOK (last (declared l)).

(** Every status the script declares is one the sink accepts. *)
Definition valid_script (l : list Step) : bool :=
  forallb valid_code (declared l).

(** The handler calls [WriteHeader] at most once, with a final status code,
    and not after a [Write]. *)
Definition declares_once_first (l : list Step) : bool :=
  match declared l with
  | [] => true
  | [st] =>
      final_code st &&
      match calls l with
      | SinkWriteHeader _ :: _ => true
      | _ => false
      end
  | _ => false
  end.

(** The world after a script ran against a fresh observer over [client]. *)
Definition after_handler (l : list Step) (s : World) : World :=
  {| log_lines := log_lines s;
     sink := sink s ++ calls l;
     recorders := recorders s ++ [observed_status l];
     clock := clock s + duration l;
     in_flight := in_flight s |}.

(** The line [LoggerMiddleware] logs for a request and a script. *)
Definition access_line (r : Request) (l : list Step) : string :=
  RequestLogger.String
    (RequestLogger.SetSince (duration l)
       (RequestLogger.SetPath (URL_Path r)
          (RequestLogger.SetStatus (observed_status l)
             (RequestLogger.SetMethod (Method r)
                RequestLogger.NewRequestLoggerBuilder)))).

(** The logger [RecoveryMiddleware] builds, and the line it logs. *)
Definition fault_logger (r : Request) : RequestLogger :=
  RequestLogger.SetPath (URL_Path r)
    (RequestLogger.SetStatus StatusInternalServerError
       (RequestLogger.SetMethod (Method r)
          RequestLogger.NewRequestLoggerBuilder)).

Definition fault_line (r : Request) (v : Any) : string :=
  RequestLogger.PanicString (fault_logger r) v.

(** The lines the chain logs for a request whose handler follows a script. *)
Definition chain_lines (r : Request) (sc : Script) : list string :=
  match ending sc with
  | returns => [access_line r (steps sc)]
  | panics any_nil => []
  | panics v => [fault_line r v]
  end.

(** A world at rest, and two requests, for the examples. *)
Definition idle : World :=
  {| log_lines := []; sink := []; recorders := []; clock := 0;
     in_flight := None |}.

Definition get_root : Request := {| Method := "GET"; URL_Path := "/" |}.

Definition get_nil_pointer : Request :=
  {| Method := "GET"; URL_Path := "/nil_pointer" |}.

(** ** The lifecycle controller: the end of [main]

    From the startup log line on, [main] is a straight line of statements,
    two of which block: the receive on the signal channel and
    [srv.Shutdown(ctx)].  The statements are kept as data and run by a small
    interpreter against the events of the outside: a signal sent to the
    process, the listener goroutine failing, [Shutdown] returning. *)

Module Lifecycle.

Inductive Signal : Type := SIGHUP | SIGINT | SIGQUIT | SIGKILL | SIGTERM.

Definition Signal_eqb (a b : Signal) : bool :=
  match a, b with
  | SIGHUP, SIGHUP | SIGINT, SIGINT | SIGQUIT, SIGQUIT
  | SIGKILL, SIGKILL | SIGTERM, SIGTERM => true
  | _, _ => false
  end.

(** [os.Interrupt]. *)
Definition os_Interrupt : Signal := SIGINT.

Inductive Stmt : Type :=
| Println (line : string)
| GoListenAndServe
| Notify (sigs : list Signal)
| Receive
| WithTimeout (d : Duration.Duration)
| Shutdown
| Exit (code : Z).

Definition port : string := ":8000".

(** [main] from [log.Println("| Listening at port " + port)] to
    [os.Exit(0)].  [defer cancel()] is not listed: [os.Exit] does not run
    deferred calls. *)
Definition main_tail : list Stmt :=
  [ Println ("| Listening at port " +:+ port);
    GoListenAndServe;
    Notify [os_Interrupt];
    Receive;
    WithTimeout (Duration.Second * 15);
    Shutdown;
    Println "| Shutting down";
    Exit 0 ].

(** [Exited code]: [main] called [os.Exit(code)].  [Killed sig]: the process
    was ended on a signal that the program does not handle, by the kernel or
    by the Go runtime, with no further statement of [main] run. *)
Inductive Status : Type :=
| Running
| Exited (code : Z)
| Killed (sig : Signal).

(** The process: the statements left to run (the head is the one [main] is
    blocked on), whether the listener goroutine is serving, the signals
    relayed to the channel, the channel's buffer of one signal, the timeout
    of the shutdown context, the log, and whether the process is alive. *)
Record Proc := {
  todo : list Stmt;
  serving : bool;
  relayed : list Signal;
  buffered : option Signal;
  ctx : option Duration.Duration;
  out : list string;
  status_ : Status
}.

Definition is_relayed (s : Signal) (p : Proc) : bool :=
  existsb (Signal_eqb s) (relayed p).

(** Run [main] until it blocks or the process exits. *)
Fixpoint run (stmts : list Stmt) (p : Proc) : Proc :=
  match stmts with
  | [] =>
      {| todo := []; serving := serving p; relayed := relayed p;
         buffered := buffered p; ctx := ctx p; out := out p;
         status_ := Exited 0 |}
  | Println line :: rest =>
      run rest
        {| todo := rest; serving := serving p; relayed := relayed p;
           buffered := buffered p; ctx := ctx p; out := out p ++ [line];
           status_ := status_ p |}
  | GoListenAndServe :: rest =>
      run rest
        {| todo := rest; serving := true; relayed := relayed p;
           buffered := buffered p; ctx := ctx p; out := out p;
           status_ := status_ p |}
  | Notify sigs :: rest =>
      run rest
        {| todo := rest; serving := serving p; relayed := sigs ++ relayed p;
           buffered := buffered p; ctx := ctx p; out := out p;
           status_ := status_ p |}
  | Receive :: rest =>
      match buffered p with
      | Some _ =>
          run rest
            {| todo := rest; serving := serving p; relayed := relayed p;
               buffered := None; ctx := ctx p; out := out p;
               status_ := status_ p |}
      | None =>
          {| todo := stmts; serving := serving p; relayed := relayed p;
             buffered := None; ctx := ctx p; out := out p;
             status_ := status_ p |}
      end
  | WithTimeout d :: rest =>
      run rest
        {| todo := rest; serving := serving p; relayed := relayed p;
           buffered := buffered p; ctx := Some d; out := out p;
           status_ := status_ p |}
  | Shutdown :: rest =>
      {| todo := stmts; serving := serving p; relayed := relayed p;
         buffered := buffered p; ctx := ctx p; out := out p;
         status_ := status_ p |}
  | Exit code :: rest =>
      {| todo := rest; serving := serving p; relayed := relayed p;
         buffered := buffered p; ctx := ctx p; out := out p;
         status_ := Exited code |}
  end.

Inductive Event : Type :=
| Deliver (s : Signal)
| ListenFailed (err : string)
| ShutdownReturned (timed_out : bool).

(** One event of the outside.
    - A signal that [signal.Notify] relays goes to the channel (and is dropped
      when the buffer is full); [main] goes on if it was receiving.  Any
      other signal is not handled by the program and ends the process.
    - The listener goroutine logs the error of [ListenAndServe] and ends.
    - When [srv.Shutdown(ctx)] returns, with or without the deadline
      exceeded, its result is dropped and [main] goes on. *)
Definition step (p : Proc) (e : Event) : Proc :=
  match status_ p with
  | Running =>
      match e with
      | Deliver s =>
          if is_relayed s p then
            let q :=
              {| todo := todo p; serving := serving p; relayed := relayed p;
                 buffered :=
                   match buffered p with Some b => Some b | None => Some s end;
                 ctx := ctx p; out := out p; status_ := Running |} in
            match todo p with
            | Receive :: _ => run (todo p) q
            | _ => q
            end
          else
            {| todo := todo p; serving := false; relayed := relayed p;
               buffered := buffered p; ctx := ctx p; out := out p;
               status_ := Killed s |}
      | ListenFailed err =>
          if serving p then
            {| todo := todo p; serving := false; relayed := relayed p;
               buffered := buffered p; ctx := ctx p; out := out p ++ [err];
               status_ := Running |}
          else p
      | ShutdownReturned _ =>
          match todo p with
          | Shutdown :: rest =>
              run rest
                {| todo := rest; serving := false; relayed := relayed p;
                   buffered := buffered p; ctx := ctx p; out := out p;
                   status_ := Running |}
          | _ => p
          end
      end
  | _ => p
  end.

(** The process when [main] reaches the startup log line. *)
Definition start : Proc :=
  {| todo := main_tail; serving := false; relayed := []; buffered := None;
     ctx := None; out := []; status_ := Running |}.

(** The process after [main] ran to its first blocking statement. *)
Definition boot : Proc := run main_tail start.

Definition run_events (evs : list Event) : Proc := fold_left step evs boot.

(** The states of the specification, read off the process. *)
Inductive Phase : Type :=
| Starting
| Listening
| ShuttingDown (timeout : option Duration.Duration)
| Stopped (code : Z)
| Terminated (sig : Signal).

Definition phase (p : Proc) : Phase :=
  match status_ p with
  | Exited code => Stopped code
  | Killed s => Terminated s
  | Running =>
      match todo p with
      | Receive :: _ => Listening
      | Shutdown :: _ => ShuttingDown (ctx p)
      | _ => Starting
      end
  end.

(** The two places where [main] blocks, as the statements left to run. *)
Definition at_receive : list Stmt :=
  [ Receive;
    WithTimeout (Duration.Second * 15);
    Shutdown;
    Println "| Shutting down";
    Exit 0 ].

Definition at_shutdown : list Stmt :=
  [ Shutdown; Println "| Shutting down"; Exit 0 ].

(** The processes that [boot] and the events lead to. *)
Inductive shape (p : Proc) : Prop :=
| shape_receiving :
    status_ p = Running -> todo p = at_receive ->
    relayed p = [SIGINT] -> buffered p = None -> shape p
| shape_draining :
    status_ p = Running -> todo p = at_shutdown ->
    relayed p = [SIGINT] -> ctx p = Some (Duration.Second * 15) -> shape p
| shape_exited :
    status_ p = Exited 0 -> shape p
| shape_killed (s : Signal) :
    status_ p = Killed s -> s <> SIGINT -> shape p.

End Lifecycle.

(** The exit code the parent of the process reads, when there is one.  A
    process ended by [SIGHUP], [SIGTERM] or [SIGKILL] dies of the signal and
    has no exit code; on [SIGQUIT] the Go runtime prints the stacks of the
    goroutines and exits with status 2. *)
Definition exit_code (p : Lifecycle.Proc) : option Z :=
  match Lifecycle.status_ p with
  | Lifecycle.Running => None
  | Lifecycle.Exited code => Some code
  | Lifecycle.Killed Lifecycle.SIGQUIT => Some 2
  | Lifecycle.Killed _ => None
  end.


(** ** The handlers [main] registers

    [http.Error] and [http.NotFound] are [net/http]'s; of [http.Error] the
    two calls on the writer are kept, [WriteHeader(code)] and the
    [fmt.Fprintln] of the message, the header map being left out. *)

Definition StatusNotFound : Z := 404.
Definition StatusMethodNotAllowed : Z := 405.

Definition newline : string := String (ascii_of_nat 10) EmptyString.

Definition http_Error (w : ResponseWriter) (error : string) (code : Z)
  : M unit :=
  WriteHeader w code ;;;
  Write w (error +:+ newline).

Definition http_NotFound : Handler :=
  fun w r => http_Error w "404 page not found" StatusNotFound.

(** [NotFoundHandler(r)]: the route built with [BuildOnly] only carries the
    handler it is given, which [GetHandler] returns. *)
Definition NotFoundHandler : Handler := LoggerMiddleware http_NotFound.

Definition MethodNotAllowedHandler : Handler :=
  LoggerMiddleware (fun w r => http_Error w "" StatusMethodNotAllowed).

(** The route [get_not_allowed]: [w.Write([]byte("Ok: " + r.Method))]. *)
Definition get_not_allowed : Handler :=
  fun w r => Write w ("Ok: " +:+ Method r).

(** The text of the run-time error of a nil pointer dereference. *)
Definition nil_dereference : string :=
  "runtime error: invalid memory address or nil pointer dereference".

(** The route [nil_pointer]: [s.n] is a nil pointer, so evaluating [s.n.n]
    panics with a [runtime.Error] before [fmt.Sprint] and [w.Write] are
    reached. *)
Definition nil_pointer : Handler :=
  fun w r =>
    n <- panic (A := Z) (any_error nil_dereference) ;;
    Write w (Sprint (VInt n)).

(** ** [fmt.Sprintf] on operands of several types

    The earlier versions of the program format the status with [%d].  The
    operand of a verb is a [Value]: [%v] prints it as [fmt.Sprint] does, [%s]
    a string or a [Stringer], [%d] an integer (a [Duration] as its count of
    nanoseconds); an operand the verb does not take, and any other verb,
    print [fmt]'s bad-verb marker. *)

Definition type_name (v : Value) : string :=
  match v with
  | VString _ => "string"
  | VInt _ => "int"
  | VDuration _ => "time.Duration"
  end.

Definition bad_verb (c : ascii) (v : Value) : string :=
  "%!" +:+ String c "(" +:+ type_name v +:+ "=" +:+ Sprint v +:+ ")".

Definition format_operand (c : ascii) (v : Value) : string :=
  if Ascii.eqb c "v" then Sprint v
  else if Ascii.eqb c "s" then
    match v with
    | VString s => s
    | VDuration d => Duration.String d
    | VInt _ => bad_verb c v
    end
  else if Ascii.eqb c "d" then
    match v with
    | VInt n => Itoa n
    | VDuration d => Itoa d
    | VString _ => bad_verb c v
    end
  else bad_verb c v.

Fixpoint extra_values (args : list Value) : string :=
  match args with
  | [] => ""
  | [a] => type_name a +:+ "=" +:+ Sprint a
  | a :: rest => type_name a +:+ "=" +:+ Sprint a +:+ ", " +:+ extra_values rest
  end.

Definition Sprintf_values_extra (args : list Value) : string :=
  match args with
  | [] => ""
  | _ => "%!(EXTRA " +:+ extra_values args +:+ ")"
  end.

Fixpoint Sprintf_values (format : string) (args : list Value) : string :=
  match format with
  | EmptyString => Sprintf_values_extra args
  | String "%" rest =>
      match rest with
      | EmptyString => "%!(NOVERB)" +:+ Sprintf_values_extra args
      | String "%" rest' => String "%" (Sprintf_values rest' args)
      | String c rest' =>
          match args with
          | [] => "%!" +:+ String c "(MISSING)" +:+ Sprintf_values rest' []
          | a :: args' => format_operand c a +:+ Sprintf_values rest' args'
          end
      end
  | String c rest => String c (Sprintf_values rest args)
  end.


(** ** The first version of the program (src/unnamed/part_000, lines 1-187)

    The logger has no colour: the getters of the method and of the elapsed
    time return the padded column, [String()] formats the status with [%d],
    and [PanicString] has neither a status nor an elapsed column.  The logger,
    [String()] and [LoggerMiddleware] are the same text in the third version
    (lines 481-627), which has no recovery middleware. *)

Module V1.

Record RequestLogger := {
  method : string;
  status : Z;
  since : Duration.Duration;
  path : string
}.

Definition pad (rl : RequestLogger) (length : Z) (value : Value) : string :=
  let v := Sprint value in
  let r :=
    Float64.to_int
      (Float64.Max (Float64.of_int (Float64.wrap64 (length - len v)))
                   (Float64.of_int 0)) in
  v +:+ Repeat " " r.

Definition GetMethod (rl : RequestLogger) : string :=
  pad rl 7 (VString (method rl)).

Definition GetSince (rl : RequestLogger) : string :=
  pad rl 12 (VDuration (since rl)).

Definition GetStatus (rl : RequestLogger) : Z := status rl.

Definition GetPath (rl : RequestLogger) : string := path rl.

Definition String (rl : RequestLogger) : string :=
  Sprintf_values "| %s | %d | %s | %s"
    [ VString (GetMethod rl);
      VInt (GetStatus rl);
      VString (GetSince rl);
      VString (GetPath rl) ].

Definition PanicString (rl : RequestLogger) (err : Any) : string :=
  let stringer (e : string) : string :=
    let tmpl := "| %s | %s | %s" in
    Sprintf_values tmpl
      [ VString (GetMethod rl); VString (GetPath rl); VString e ] in
  match err with
  | any_error msg => stringer msg
  | any_nil | any_other _ => stringer "Unknown"
  end.

(** The deferred function builds the logger before it calls [recover()];
    the fields it does not name are zero. *)
Definition RecoveryMiddleware (next : Handler) : Handler :=
  fun w r =>
    defer_
      (let rl :=
         {| method := Method r; status := 0; since := 0;
            path := URL_Path r |} in
       err <- recover ;;
       match err with
       | any_nil => ret tt
       | _ =>
           log_Println (PanicString rl err) ;;;
           WriteHeader w 500
       end)
      (next w r).

Definition LoggerMiddleware (next : Handler) : Handler :=
  fun w r =>
    start <- time_Now ;;
    writer <- ResponseRecorderWriter.new w StatusOK ;;
    next (ResponseRecorderWriter.as_writer writer) r ;;;
    st <- ResponseRecorderWriter.Status writer ;;
    elapsed <- time_Since start ;;
    log_Println
      (String
         {| method := Method r; status := st; since := elapsed;
            path := URL_Path r |}).

(** [router.Use(RecoveryMiddleware, LoggerMiddleware)]. *)
Definition chain : Handler -> Handler :=
  Use [RecoveryMiddleware; LoggerMiddleware].

End V1.

(** ** The inline logger of src/main.go

    [LoggingMiddleware] pads with a local closure and formats the line with
    [log.Printf]; the two padded columns are computed before the status is
    read. *)

Module Inline.



End Inline.

(** What [http.Error(w, msg, code)] does to its writer, as a script. *)
Definition error_script (msg : string) (code : Z) : Script :=
  {| steps := [CallWriteHeader code; CallWrite (msg +:+ newline)];
     ending := returns |}.

(** The logger of the first version with the fields of a logger of the
    second. *)
Definition uncoloured (rl : RequestLogger) : V1.RequestLogger :=
  {| V1.method := method rl; V1.status := status rl; V1.since := since rl;
     V1.path := path rl |}.

(** ** Reading a builder call sequence *)

(** The argument of the last call of each setter, if any. *)
Definition last_method (cs : list Setter) : option string :=
  last (omap (fun c => match c with CallSetMethod m => Some m | _ => None end)
          cs).

Definition last_path (cs : list Setter) : option string :=
  last (omap (fun c => match c with CallSetPath p => Some p | _ => None end)
          cs).

Definition last_since (cs : list Setter) : option Duration.Duration :=
  last (omap (fun c => match c with CallSetSince d => Some d | _ => None end)
          cs).

Definition last_status (cs : list Setter) : option Z :=
  last (omap (fun c => match c with CallSetStatus st => Some st | _ => None end)
          cs).

(** The chain with the two middlewares in the other order. *)
Definition reversed_chain : Handler -> Handler :=
  Use [LoggerMiddleware; RecoveryMiddleware].

(** * Proofs *)

(** ** Strings *)

Section StringFacts.

Lemma append_cons (x : ascii) (a b : string) :
  String x a +:+ b = String x (a +:+ b).
Proof. reflexivity. Qed.

Lemma append_empty_l (a : string) : "" +:+ a = a.
Proof. reflexivity. Qed.

Lemma length_append (a b : string) :
  String.length (a +:+ b) = (String.length a + String.length b)%nat.
Proof.
  induction a as [|x a IH]; [reflexivity|].
  rewrite append_cons. simpl. now rewrite IH.
Qed.

Lemma append_assoc (a b c : string) : (a +:+ b) +:+ c = a +:+ (b +:+ c).
Proof.
  induction a as [|x a IH]; [reflexivity|].
  rewrite !append_cons. now rewrite IH.
Qed.

Lemma append_empty_r (a : string) : a +:+ "" = a.
Proof.
  induction a as [|x a IH]; [reflexivity|].
  rewrite append_cons. now rewrite IH.
Qed.

Lemma prefix_append (a b : string) : String.prefix a (a +:+ b) = true.
Proof.
  induction a as [|x a IH].
  - now destruct b.
  - rewrite append_cons. simpl.
    destruct (ascii_dec x x) as [_|N]; [exact IH | now destruct N].
Qed.

Lemma length_repeat_space (n : nat) : String.length (repeat_nat " " n) = n.
Proof.
  induction n as [|n IH]; [reflexivity|].
  cbn [repeat_nat]. rewrite length_append, IH. reflexivity.
Qed.

Lemma len_nonneg (s : string) : 0 <= len s.
Proof. unfold len. lia. Qed.

Lemma len_append (a b : string) : len (a +:+ b) = len a + len b.
Proof. unfold len. rewrite length_append. lia. Qed.

Lemma len_Repeat_space (count : Z) : len (Repeat " " count) = Z.max count 0.
Proof. unfold len, Repeat. rewrite length_repeat_space. lia. Qed.

Lemma Repeat_nonpos (s : string) (count : Z) : count <= 0 -> Repeat s count = "".
Proof.
  intros H. unfold Repeat. now replace (Z.to_nat count) with 0%nat by lia.
Qed.

End StringFacts.

(** ** The [float64] round trip of [pad]

    Below [2^53] every non-negative integer is a binary64 value, so the
    conversion there and back is the identity; a negative integer converts to
    a negative value or a negative zero, which [math.Max] replaces by zero. *)

Section Float64Facts.

Import Float64.

Lemma digits2_size (m : positive) : digits2_pos m = Pos.size m.
Proof. induction m; simpl; congruence. Qed.

Lemma digits2_shift (m k : positive) :
  digits2_pos (Pos.iter xO m k) = (digits2_pos m + k)%positive.
Proof.
  induction k as [|k IH] using Pos.peano_ind.
  - simpl. lia.
  - rewrite Pos.iter_succ. simpl. rewrite IH. lia.
Qed.

Lemma Zpos_shift (m k : positive) :
  Z.pos (Pos.iter xO m k) = Z.pos m * 2 ^ Z.pos k.
Proof.
  induction k as [|k IH] using Pos.peano_ind.
  - simpl. lia.
  - rewrite Pos.iter_succ, Pos2Z.inj_xO, IH, Pos2Z.inj_succ, Z.pow_succ_r
      by lia.
    lia.
Qed.

Lemma digits2_bound (m : positive) :
  Z.pos m < 2 ^ 53 -> Z.pos (digits2_pos m) <= 53.
Proof.
  intros H. rewrite digits2_size.
  pose proof (Pos.size_le m) as L.
  destruct (Z_le_gt_dec (Z.pos (Pos.size m)) 53) as [|G];
    [assumption | exfalso].
  assert (2 ^ 54 <= Z.pos (2 ^ Pos.size m)).
  { rewrite Pos2Z.inj_pow. apply Z.pow_le_mono_r; lia. }
  assert (Z.pos (2 ^ Pos.size m) <= Z.pos m~0)
    by (apply Pos2Z.pos_le_pos; exact L).
  rewrite Pos2Z.inj_xO in *. lia.
Qed.

(** A mantissa that already sits at its canonical exponent is not rounded. *)
Lemma binary_round_aux_canonical (sx : bool) (mz : positive) (ez : Z) :
  fexp prec emax (Z.pos (digits2_pos mz) + ez) = ez ->
  ez <= emax - prec ->
  binary_round_aux prec emax sx (Z.pos mz) ez loc_Exact
  = S754_finite sx mz ez.
Proof.
  intros C B. unfold binary_round_aux, shr_fexp.
  cbn [Zdigits2 shr_record_of_loc]. rewrite C, Z.sub_diag.
  cbn [shr shr_m loc_of_shr_record round_nearest_even Zdigits2
       shr_record_of_loc].
  rewrite C, Z.sub_diag. cbn [shr shr_m].
  apply Z.leb_le in B. rewrite B. reflexivity.
Qed.

Lemma of_int_pos_exact (m : positive) :
  Z.pos m < 2 ^ 53 ->
  exists mz ez,
    of_int (Z.pos m) = S754_finite false mz ez /\
    -52 <= ez <= 0 /\ Z.pos mz = Z.pos m * 2 ^ (- ez).
Proof.
  intros H. pose proof (digits2_bound m H) as D.
  unfold of_int, binary_normalize, binary_round.
  assert (F : fexp prec emax (Z.pos (digits2_pos m) + 0)
              = Z.pos (digits2_pos m) - 53).
  { unfold fexp, emin, prec, emax. lia. }
  rewrite F. unfold shl_align.
  destruct (Z.pos (digits2_pos m) - 53 - 0) as [|p|p] eqn:E; try lia.
  - exists m, 0. split; [|split; [lia | simpl; lia]].
    apply binary_round_aux_canonical.
    + rewrite F. lia.
    + unfold emax, prec. lia.
  - exists (Pos.iter xO m p), (Z.pos (digits2_pos m) - 53).
    split; [|split; [lia|]].
    + apply binary_round_aux_canonical.
      * rewrite digits2_shift. unfold fexp, emin, prec, emax. lia.
      * unfold emax, prec. lia.
    + rewrite Zpos_shift. f_equal. f_equal. lia.
Qed.

Lemma shr_1_nonneg (mrs : shr_record) :
  0 <= shr_m mrs -> 0 <= shr_m (shr_1 mrs).
Proof.
  destruct mrs as [m r s]. cbn [shr_m]. intros H.
  destruct m as [|[p|p|]|p]; cbn [shr_1 shr_m]; lia.
Qed.

Lemma iter_shr_1_nonneg (p : positive) (mrs : shr_record) :
  0 <= shr_m mrs -> 0 <= shr_m (SpecFloat.iter_pos shr_1 p mrs).
Proof.
  revert mrs. induction p as [p IH|p IH|]; intros mrs H; simpl.
  - apply IH, IH, shr_1_nonneg, H.
  - apply IH, IH, H.
  - apply shr_1_nonneg, H.
Qed.

Lemma shr_nonneg (mrs : shr_record) (e n : Z) :
  0 <= shr_m mrs -> 0 <= shr_m (fst (shr mrs e n)).
Proof.
  intros H. destruct n; simpl; try assumption. apply iter_shr_1_nonneg, H.
Qed.

Lemma shr_fexp_nonneg (m e : Z) (l : location) :
  0 <= m -> 0 <= shr_m (fst (shr_fexp prec emax m e l)).
Proof.
  intros H. unfold shr_fexp. apply shr_nonneg. destruct l as [|[]]; exact H.
Qed.

Lemma round_nearest_even_nonneg (m : Z) (l : location) :
  0 <= m -> 0 <= round_nearest_even m l.
Proof.
  intros H. destruct l as [|[]]; simpl; try lia. destruct (Z.even m); lia.
Qed.

Lemma binary_round_aux_signed (sx : bool) (mx ex : Z) (lx : location) :
  0 <= mx -> signed sx (binary_round_aux prec emax sx mx ex lx).
Proof.
  intros H. unfold binary_round_aux.
  pose proof (shr_fexp_nonneg mx ex lx H) as H1.
  destruct (shr_fexp prec emax mx ex lx) as [mrs' e'].
  pose proof (shr_fexp_nonneg _ e' loc_Exact
                (round_nearest_even_nonneg _ (loc_of_shr_record mrs') H1))
    as H2.
  destruct (shr_fexp prec emax _ e' loc_Exact) as [mrs'' e''].
  cbn [fst] in H2. destruct (shr_m mrs'') as [|q|q]; [reflexivity| |lia].
  destruct (e'' <=? emax - prec); reflexivity.
Qed.

Lemma of_int_neg_signed (m : positive) : signed true (of_int (Z.neg m)).
Proof.
  unfold of_int, binary_normalize, binary_round.
  destruct (shl_align _ _ _) as [mz ez].
  apply binary_round_aux_signed. lia.
Qed.

Lemma Max_negative_zero (f : float64) :
  signed true f -> to_int (Max f (of_int 0)) = 0.
Proof.
  destruct f as [s|s| |s m e]; simpl; intros H; try contradiction;
    subst; reflexivity.
Qed.

(** The repeat count of [pad]: [int(math.Max(float64(x), 0))] is
    [max x 0] for every [x] below [2^53]. *)
Lemma repeat_count_exact (x : Z) :
  x < 2 ^ 53 -> to_int (Max (of_int x) (of_int 0)) = Z.max x 0.
Proof.
  intros H. destruct x as [|m|m].
  - reflexivity.
  - destruct (of_int_pos_exact m H) as (mz & ez & E & B & V).
    rewrite E. cbn [Max IsPosInf IsNaN IsZero orb andb of_int
                    binary_normalize SFltb SFcompare to_int].
    assert (M : (if 0 <=? ez then Z.pos mz * 2 ^ ez
                 else Z.pos mz / 2 ^ (- ez)) = Z.pos m).
    { destruct (Z.leb_spec 0 ez) as [P|N].
      - assert (ez = 0) by lia. subst ez. simpl in V. lia.
      - rewrite V. apply Z.div_mul. apply Z.pow_nonzero; lia. }
    rewrite M. unfold min_int64, max_int64.
    destruct (Z.leb_spec (- 2 ^ 63) (Z.pos m)) as [_|N]; [|lia].
    destruct (Z.leb_spec (Z.pos m) (2 ^ 63 - 1)) as [_|N]; [simpl; lia|lia].
  - rewrite Max_negative_zero by apply of_int_neg_signed. lia.
Qed.

(** Above [2^53] the conversion rounds: [2^53 + 1] is not a binary64
    value. *)
Example repeat_count_rounds_above_2_53 :
  to_int (Max (of_int (2 ^ 53 + 1)) (of_int 0)) = 2 ^ 53.
Proof. vm_compute. reflexivity. Qed.

Lemma wrap64_id (z : Z) : min_int64 <= z <= max_int64 -> wrap64 z = z.
Proof.
  unfold min_int64, max_int64, wrap64. intros H.
  rewrite Z.mod_small by lia. lia.
Qed.

End Float64Facts.

(** ** The status colours *)

Lemma colors_distinct :
  NoDup [Cyan colors; Green colors; Yellow colors; Magenta colors; Red colors].
Proof.
  repeat (constructor;
          [rewrite ?not_elem_of_cons;
           repeat split; try discriminate; apply not_elem_of_nil|]).
  constructor.
Qed.

(** C3: [GetStatusColor] is total and depends on the status alone: it
    returns the informational colour (cyan) on [100,200), the success colour
    (green) on [200,300), the redirect colour (yellow) on [300,400), the
    client-fault colour (magenta) on [400,500) and the server-fault colour
    (red) everywhere else, zero and the negative numbers included; the five
    colours differ, and the boundaries 199/200, 299/300, 399/400 and 499/500
    fall on the two sides as the intervals say. *)
Theorem GetStatusColor_partition :
  forall s : Z,
    (100 <= s < 200 -> GetStatusColor s = Cyan colors) /\
    (200 <= s < 300 -> GetStatusColor s = Green colors) /\
    (300 <= s < 400 -> GetStatusColor s = Yellow colors) /\
    (400 <= s < 500 -> GetStatusColor s = Magenta colors) /\
    (s < 100 \/ 500 <= s -> GetStatusColor s = Red colors) /\
    NoDup [Cyan colors; Green colors; Yellow colors; Magenta colors;
           Red colors] /\
    [GetStatusColor 99; GetStatusColor 100; GetStatusColor 199;
     GetStatusColor 200; GetStatusColor 299; GetStatusColor 300;
     GetStatusColor 399; GetStatusColor 400; GetStatusColor 499;
     GetStatusColor 500; GetStatusColor 0; GetStatusColor (-1)]
    = [Red colors; Cyan colors; Cyan colors; Green colors; Green colors;
       Yellow colors; Yellow colors; Magenta colors; Magenta colors;
       Red colors; Red colors; Red colors].
Proof.
  intros s. unfold GetStatusColor.
  repeat split; try (intros H;
    repeat match goal with
           | |- context [?a <=? ?b] => destruct (Z.leb_spec a b)
           | |- context [?a <? ?b] => destruct (Z.ltb_spec a b)
           end; simpl; solve [reflexivity | lia]).
  exact colors_distinct.
Qed.

Lemma GetStatusColor_partition_witness :
  400 <= 404 < 500 /\ GetStatusColor 404 = Magenta colors.
Proof.
  split; [lia|].
  apply (proj1 (proj2 (proj2 (proj2 (GetStatusColor_partition 404))))). lia.
Defined.

(** ** Padding *)

Lemma pad_unfold (rl : RequestLogger) (n : Z) (v : Value) :
  Float64.min_int64 <= n - len (Sprint v) < 2 ^ 53 ->
  RequestLogger.pad rl n v
  = Sprint v +:+ Repeat " " (Z.max (n - len (Sprint v)) 0).
Proof.
  intros H. unfold RequestLogger.pad.
  rewrite wrap64_id by (unfold Float64.max_int64; lia).
  now rewrite repeat_count_exact by lia.
Qed.

Lemma pad_call_returns (rl : RequestLogger) (n : Z) (v : Value) (s : string) :
  RequestLogger.pad_call rl n v = Some s -> s = RequestLogger.pad rl n v.
Proof.
  unfold RequestLogger.pad_call, RequestLogger.pad, Repeat_call.
  destruct (_ <? 0); [discriminate|]. now intros [= <-].
Qed.

Lemma pad_call_in_range (rl : RequestLogger) (n : Z) (v : Value) :
  Float64.min_int64 <= n - len (Sprint v) < 2 ^ 53 ->
  RequestLogger.pad_call rl n v = Some (RequestLogger.pad rl n v).
Proof.
  intros H. unfold RequestLogger.pad_call, RequestLogger.pad, Repeat_call.
  rewrite wrap64_id by (unfold Float64.max_int64; lia).
  rewrite repeat_count_exact by lia.
  destruct (Z.ltb_spec (Z.max (n - len (Sprint v)) 0) 0); [lia|reflexivity].
Qed.

(** The two columns [String()] pads: the call returns for every string a Go
    program can hold. *)
Lemma pad_call_of_column (rl : RequestLogger) (n : Z) (v : Value) :
  0 <= n < 2 ^ 53 ->
  len (Sprint v) <= Float64.max_int64 ->
  RequestLogger.pad_call rl n v = Some (RequestLogger.pad rl n v).
Proof.
  intros Hn Hv. apply pad_call_in_range.
  pose proof (len_nonneg (Sprint v)).
  unfold Float64.min_int64, Float64.max_int64 in *. lia.
Qed.

(** C4, as the code has it: for a width [n] and a value whose rendering is
    [len] bytes long with [-2^63 <= n - len < 2^53] (the [int] subtraction
    does not wrap and [float64] holds the difference exactly), the call
    [pad(n, v)] returns, and it returns the rendered value followed by
    [n - len] spaces: padded to exactly [n] when it is shorter, unchanged
    when it is at or beyond [n], of length [max(len, n)].  For every width,
    a call that returns has the rendered value as a prefix of its result:
    nothing is ever truncated. *)
Theorem pad_call_right_pads :
  forall (rl : RequestLogger) (n : Z) (v : Value),
    (Float64.min_int64 <= n - len (Sprint v) < 2 ^ 53 ->
     exists s,
       RequestLogger.pad_call rl n v = Some s /\
       s = Sprint v +:+ repeat_nat " " (Z.to_nat (n - len (Sprint v))) /\
       (len (Sprint v) < n -> len s = n) /\
       (n <= len (Sprint v) -> s = Sprint v) /\
       len s = Z.max (len (Sprint v)) n) /\
    (forall s,
       RequestLogger.pad_call rl n v = Some s ->
       String.prefix (Sprint v) s = true /\ len (Sprint v) <= len s).
Proof.
  intros rl n v. split.
  - intros H. exists (RequestLogger.pad rl n v).
    split; [now apply pad_call_in_range|].
    rewrite (pad_unfold rl n v H).
    assert (L : len (Sprint v +:+ Repeat " " (Z.max (n - len (Sprint v)) 0))
                = Z.max (len (Sprint v)) n).
    { rewrite len_append, len_Repeat_space. lia. }
    repeat split.
    + unfold Repeat. f_equal. f_equal. lia.
    + intros Hlt. rewrite L. lia.
    + intros Hle. rewrite Repeat_nonpos by lia. apply append_empty_r.
    + exact L.
  - intros s E. apply pad_call_returns in E. subst s.
    split; [apply prefix_append|].
    unfold RequestLogger.pad. rewrite len_append.
    pose proof (len_nonneg (Repeat " "
      (Float64.to_int
         (Float64.Max
            (Float64.of_int (Float64.wrap64 (n - len (Sprint v))))
            (Float64.of_int 0))))).
    lia.
Qed.

Lemma pad_call_right_pads_witness :
  Float64.min_int64 <= 7 - len (Sprint (VString "GET")) < 2 ^ 53 /\
  exists s,
    RequestLogger.pad_call RequestLogger.NewRequestLoggerBuilder 7
      (VString "GET") = Some s /\
    s = "GET" +:+ repeat_nat " " (Z.to_nat (7 - 3)) /\
    (len (Sprint (VString "GET")) < 7 -> len s = 7) /\
    (7 <= len (Sprint (VString "GET")) -> s = "GET") /\
    len s = Z.max 3 7.
Proof.
  assert (H : Float64.min_int64 <= 7 - len (Sprint (VString "GET")) < 2 ^ 53).
  { vm_compute. split; [intros E; discriminate E | reflexivity]. }
  split; [exact H|].
  exact (proj1 (pad_call_right_pads RequestLogger.NewRequestLoggerBuilder 7
                  (VString "GET")) H).
Defined.

(** C4, as the claim words it, fails: the claim is for every width, and at
    the largest [int] the call panics instead of returning a padded string.
    [float64(MaxInt64)] rounds up to [2^63], which does not fit an [int]:
    the conversion back yields the most negative [int] and [strings.Repeat]
    panics on it.  The same happens at the smallest [int], where the
    subtraction of the length wraps around. *)
Lemma pad_panics_at_MaxInt64 :
  RequestLogger.pad_call RequestLogger.NewRequestLoggerBuilder
    9223372036854775807 (VString "") = None /\
  RequestLogger.pad_call RequestLogger.NewRequestLoggerBuilder
    (-9223372036854775808) (VString "a") = None.
Proof. split; vm_compute; reflexivity. Qed.

Example pad_call_GET :
  RequestLogger.pad_call RequestLogger.NewRequestLoggerBuilder 7
    (VString "GET") = Some "GET    ".
Proof. reflexivity. Qed.

Example pad_call_longer_than_width :
  RequestLogger.pad_call RequestLogger.NewRequestLoggerBuilder 7
    (VString "PROPFIND") = Some "PROPFIND".
Proof. reflexivity. Qed.

Example pad_OPTIONS :
  RequestLogger.pad RequestLogger.NewRequestLoggerBuilder 7 (VString "OPTIONS")
  = "OPTIONS".
Proof. reflexivity. Qed.

Example pad_longer_than_width :
  RequestLogger.pad RequestLogger.NewRequestLoggerBuilder 7
    (VString "PROPFIND") = "PROPFIND".
Proof. reflexivity. Qed.

Example pad_duration :
  RequestLogger.pad RequestLogger.NewRequestLoggerBuilder 12
    (VDuration 1500000) = "1.5ms       ".
Proof. reflexivity. Qed.

(** ** The two renderers *)

Lemma padAndColor_padded (rl : RequestLogger) (n : Z) (v : Value) :
  0 < n ->
  RequestLogger.padAndColor rl n v
  = color rl +:+ RequestLogger.pad rl n (VString (Sprint v)) +:+ Reset colors.
Proof.
  intros H. unfold RequestLogger.padAndColor.
  destruct (Z.ltb_spec 0 n) as [_|N]; [apply append_assoc | lia].
Qed.

Lemma padAndColor_unpadded (rl : RequestLogger) (v : Value) :
  RequestLogger.padAndColor rl 0 v = color rl +:+ Sprint v +:+ Reset colors.
Proof. unfold RequestLogger.padAndColor. simpl. apply append_assoc. Qed.

(** The line of [String()], field by field. *)
Lemma String_line (rl : RequestLogger) :
  RequestLogger.String rl
  = "| " +:+ (color rl +:+ RequestLogger.pad rl 7 (VString (method rl))
              +:+ Reset colors) +:+
    " | " +:+ (color rl +:+ Itoa (status rl) +:+ Reset colors) +:+
    " | " +:+ RequestLogger.pad rl 12 (VDuration (since rl)) +:+
    " | " +:+ path rl.
Proof.
  unfold RequestLogger.String.
  rewrite padAndColor_padded by lia. rewrite padAndColor_unpadded.
  cbn [Sprintf Ascii.eqb Bool.eqb orb Sprintf_extra Sprint
       RequestLogger.GetMethod RequestLogger.GetStatus RequestLogger.GetSince
       RequestLogger.GetPath].
  rewrite append_empty_r. reflexivity.
Qed.

Lemma PanicString_line (rl : RequestLogger) (err : Any) :
  RequestLogger.PanicString rl err
  = "| " +:+ (color rl +:+ RequestLogger.pad rl 7 (VString (method rl))
              +:+ Reset colors) +:+
    " | " +:+ (color rl +:+ Itoa (status rl) +:+ Reset colors) +:+
    " |" +:+ Repeat " " 13 +:+ "| " +:+ path rl +:+
    " " +:+ (color rl +:+ description err +:+ Reset colors).
Proof.
  assert (E : RequestLogger.PanicString rl err
              = Sprintf "| %s | %s |             | %s %s"
                  [ RequestLogger.padAndColor rl 7 (VString (method rl));
                    RequestLogger.padAndColor rl 0 (VInt (status rl));
                    path rl;
                    (color rl +:+ description err) +:+ Reset colors ]).
  { destruct err; reflexivity. }
  rewrite E, padAndColor_padded by lia. rewrite padAndColor_unpadded.
  cbn [Sprintf Ascii.eqb Bool.eqb orb Sprintf_extra Sprint].
  rewrite append_empty_r, (append_assoc (color rl) (description err)).
  reflexivity.
Qed.

(** C5, as the code has it: [PanicString] renders the method and status
    columns and the path as [String()] does, leaves the elapsed-time column
    blank (thirteen spaces between the bars) and appends the description of
    the caught value between the logger's colour field and the reset marker:
    the message of a value that implements [error], the token [Unknown] for
    the nil interface and for a value of any other type.  The colour field
    is what [SetStatus] selected from the status class of its argument, so
    the fault line of a logger whose status was set carries [GetStatusColor]
    of that status on its three coloured fields; the other setters leave the
    colour field alone. *)
Theorem PanicString_fault_line :
  forall (rl : RequestLogger),
    let columns :=
      "| " +:+ RequestLogger.padAndColor rl 7 (VString (method rl)) +:+
      " | " +:+ RequestLogger.padAndColor rl 0 (VInt (status rl)) +:+ " |" in
    let fault_line (d : string) :=
      columns +:+ Repeat " " 13 +:+ "| " +:+ path rl +:+
      " " +:+ (color rl +:+ d +:+ Reset colors) in
    (forall msg, RequestLogger.PanicString rl (any_error msg) = fault_line msg)
    /\ RequestLogger.PanicString rl any_nil = fault_line "Unknown"
    /\ (forall repr,
          RequestLogger.PanicString rl (any_other repr) = fault_line "Unknown")
    /\ RequestLogger.String rl
       = columns +:+ " " +:+ RequestLogger.pad rl 12 (VDuration (since rl))
         +:+ " | " +:+ path rl
    /\ (forall st, color (RequestLogger.SetStatus st rl) = GetStatusColor st)
    /\ (forall st err,
          RequestLogger.PanicString (RequestLogger.SetStatus st rl) err
          = "| " +:+ (GetStatusColor st +:+
                      RequestLogger.pad rl 7 (VString (method rl)) +:+
                      Reset colors) +:+
            " | " +:+ (GetStatusColor st +:+ Itoa st +:+ Reset colors) +:+
            " |" +:+ Repeat " " 13 +:+ "| " +:+ path rl +:+
            " " +:+ (GetStatusColor st +:+ description err +:+ Reset colors))
    /\ (forall m p d,
          color (RequestLogger.SetMethod m rl) = color rl /\
          color (RequestLogger.SetPath p rl) = color rl /\
          color (RequestLogger.SetSince d rl) = color rl).
Proof.
  intros rl columns fault_line.
  assert (P : forall err,
             RequestLogger.PanicString rl err = fault_line (description err)).
  { intros err. rewrite PanicString_line. unfold fault_line, columns.
    rewrite padAndColor_padded by lia. rewrite padAndColor_unpadded.
    cbn [Sprint]. rewrite !append_assoc. reflexivity. }
  repeat split.
  - intros msg. apply (P (any_error msg)).
  - apply (P any_nil).
  - intros repr. apply (P (any_other repr)).
  - rewrite String_line. unfold columns.
    rewrite padAndColor_padded by lia. rewrite padAndColor_unpadded.
    cbn [Sprint]. rewrite !append_assoc. reflexivity.
  - intros st err. rewrite PanicString_line. reflexivity.
Qed.

(** C5, as the claim words it, fails: on a logger whose status was never
    set the description is not wrapped in the colour of the status class of
    the logger's status (0, the server-fault class) but in the empty colour
    field. *)
Lemma PanicString_unset_logger_is_uncoloured :
  RequestLogger.PanicString (build [CallSetMethod "GET"; CallSetPath "/"])
    (any_error "boom")
  <> PanicString_as_specified (build [CallSetMethod "GET"; CallSetPath "/"])
       (any_error "boom") /\
  RequestLogger.PanicString (build [CallSetMethod "GET"; CallSetPath "/"])
    (any_error "boom")
  = "| GET    " +:+ Reset colors +:+ " | 0" +:+ Reset colors +:+
    " |             | / boom" +:+ Reset colors /\
  PanicString_as_specified (build [CallSetMethod "GET"; CallSetPath "/"])
    (any_error "boom")
  = "| GET    " +:+ Reset colors +:+ " | 0" +:+ Reset colors +:+
    " |             | / " +:+ Red colors +:+ "boom" +:+ Reset colors.
Proof.
  split; [vm_compute; intros E; discriminate E|].
  split; reflexivity.
Qed.

(** The two agree on a logger whose colour field is the colour of its
    status, as it is after [SetStatus], whatever other setters follow. *)
Lemma PanicString_as_specified_when_coloured (rl : RequestLogger)
  (err : Any) :
  color rl = GetStatusColor (status rl) ->
  RequestLogger.PanicString rl err = PanicString_as_specified rl err.
Proof.
  intros C. rewrite PanicString_line. unfold PanicString_as_specified.
  rewrite padAndColor_padded by lia. rewrite padAndColor_unpadded.
  cbn [Sprint]. rewrite <- C, !append_assoc. reflexivity.
Qed.

Example PanicString_nil_pointer :
  RequestLogger.PanicString
    (build [CallSetMethod "GET"; CallSetStatus 500;
            CallSetPath "/nil_pointer"])
    (any_error
       "runtime error: invalid memory address or nil pointer dereference")
  = "| " +:+ Red colors +:+ "GET    " +:+ Reset colors +:+
    " | " +:+ Red colors +:+ "500" +:+ Reset colors +:+
    " |             | /nil_pointer " +:+ Red colors +:+
    "runtime error: invalid memory address or nil pointer dereference" +:+
    Reset colors.
Proof. reflexivity. Qed.

Example PanicString_of_a_string :
  RequestLogger.PanicString
    (build [CallSetMethod "GET"; CallSetStatus 500; CallSetPath "/"])
    (any_other "boom")
  = "| " +:+ Red colors +:+ "GET    " +:+ Reset colors +:+
    " | " +:+ Red colors +:+ "500" +:+ Reset colors +:+
    " |             | / " +:+ Red colors +:+ "Unknown" +:+ Reset colors.
Proof. reflexivity. Qed.

(** C6, as the code has it: [String()] produces the line
    "| <method> | <status> | <elapsed> | <path>" in which the method column
    is the method right-padded to width 7 and wrapped, padding included, in
    the colour-start and colour-reset markers, the status is wrapped in the
    same markers and carries no padding, the elapsed time is padded to width
    12 and plain, and the path is appended plain. *)
Theorem String_steady_line :
  forall (rl : RequestLogger),
    RequestLogger.String rl
    = "| " +:+ (color rl +:+ RequestLogger.pad rl 7 (VString (method rl))
                +:+ Reset colors) +:+
      " | " +:+ (color rl +:+ Itoa (status rl) +:+ Reset colors) +:+
      " | " +:+ RequestLogger.pad rl 12 (VDuration (since rl)) +:+
      " | " +:+ path rl.
Proof. exact String_line. Qed.

(** C6, as the claim words it, fails: the method column carries the colour
    markers too. *)
Lemma String_method_is_coloured :
  RequestLogger.String (populated "GET" 200 "/" 1500000)
  <> String_as_specified (populated "GET" 200 "/" 1500000).
Proof. vm_compute. intros E. discriminate E. Qed.

Example String_get_root :
  RequestLogger.String (populated "GET" 200 "/" 1500000)
  = "| " +:+ Green colors +:+ "GET    " +:+ Reset colors +:+
    " | " +:+ Green colors +:+ "200" +:+ Reset colors +:+
    " | 1.5ms        | /".
Proof. reflexivity. Qed.

(** ** The colour of a logger whose status was never set *)

Lemma never_set_preserves (cs : list Setter) (rl : RequestLogger) :
  status_never_set cs = true ->
  color (fold_left apply_setter cs rl) = color rl /\
  status (fold_left apply_setter cs rl) = status rl.
Proof.
  revert rl. induction cs as [|c cs IH]; intros rl H; [now split|].
  cbn [status_never_set forallb] in H. apply andb_true_iff in H as [Hc Hcs].
  cbn [fold_left]. destruct (IH (apply_setter rl c) Hcs) as [IC IS].
  rewrite IC, IS. destruct c; [now split..|discriminate Hc].
Qed.

Lemma GetStatusColor_outside (st : Z) :
  st < 100 \/ 500 <= st -> GetStatusColor st = Red colors.
Proof.
  intros H. unfold GetStatusColor.
  repeat match goal with
         | |- context [?a <=? ?b] => destruct (Z.leb_spec a b)
         | |- context [?a <? ?b] => destruct (Z.ltb_spec a b)
         end; simpl; solve [reflexivity | lia].
Qed.

(** C7, as the code has it: on a logger built without any [SetStatus] call
    the status is 0 and the colour field is the empty string, so [String()]
    and [PanicString] write the method column, the status and the
    description of the fault with no colour-start marker before them and
    only the reset marker after them.  The server-fault colour is what
    [SetStatus] puts in the colour field once it is called with a status
    outside [100,500), zero included. *)
Theorem unset_status_has_no_color :
  forall (cs : list Setter),
    status_never_set cs = true ->
    color (build cs) = "" /\
    status (build cs) = 0 /\
    RequestLogger.padAndColor (build cs) 7 (VString (method (build cs)))
    = RequestLogger.pad (build cs) 7 (VString (method (build cs))) +:+
      Reset colors /\
    RequestLogger.padAndColor (build cs) 0 (VInt (status (build cs)))
    = "0" +:+ Reset colors /\
    RequestLogger.String (build cs)
    = "| " +:+ (RequestLogger.pad (build cs) 7 (VString (method (build cs)))
                +:+ Reset colors) +:+
      " | " +:+ ("0" +:+ Reset colors) +:+
      " | " +:+ RequestLogger.pad (build cs) 12 (VDuration (since (build cs)))
      +:+ " | " +:+ path (build cs) /\
    (forall err,
       RequestLogger.PanicString (build cs) err
       = "| " +:+ (RequestLogger.pad (build cs) 7
                     (VString (method (build cs))) +:+ Reset colors) +:+
         " | " +:+ ("0" +:+ Reset colors) +:+
         " |" +:+ Repeat " " 13 +:+ "| " +:+ path (build cs) +:+
         " " +:+ (description err +:+ Reset colors)) /\
    (forall st,
       st < 100 \/ 500 <= st ->
       color (RequestLogger.SetStatus st (build cs)) = Red colors) /\
    color (RequestLogger.SetStatus 0 (build cs)) = Red colors.
Proof.
  intros cs H.
  destruct (never_set_preserves cs RequestLogger.NewRequestLoggerBuilder H)
    as [C S].
  fold (build cs) in C, S.
  change (color RequestLogger.NewRequestLoggerBuilder) with "" in C.
  change (status RequestLogger.NewRequestLoggerBuilder) with 0 in S.
  split; [exact C|]. split; [exact S|].
  split; [|split; [|split; [|split; [|split]]]].
  - rewrite padAndColor_padded by lia. rewrite C. reflexivity.
  - rewrite padAndColor_unpadded, C, S. reflexivity.
  - rewrite String_line, C, S. reflexivity.
  - intros err. rewrite PanicString_line, C, S. reflexivity.
  - intros st O. exact (GetStatusColor_outside st O).
  - reflexivity.
Qed.

Lemma unset_status_has_no_color_witness :
  status_never_set [CallSetMethod "GET"; CallSetPath "/"] = true /\
  color (build [CallSetMethod "GET"; CallSetPath "/"]) = "".
Proof.
  split; [reflexivity|].
  exact (proj1 (unset_status_has_no_color
                  [CallSetMethod "GET"; CallSetPath "/"] eq_refl)).
Defined.

(** C7, as the claim words it, fails: the colour of a fresh logger is not the
    server-fault colour, and its lines do not start a red field. *)
Lemma fresh_logger_is_not_red :
  color RequestLogger.NewRequestLoggerBuilder <> Red colors /\
  color RequestLogger.NewRequestLoggerBuilder
  <> GetStatusColor (status RequestLogger.NewRequestLoggerBuilder) /\
  String.prefix ("| " +:+ Red colors)
    (RequestLogger.PanicString RequestLogger.NewRequestLoggerBuilder any_nil)
  = false /\
  String.prefix ("| " +:+ Red colors)
    (RequestLogger.String RequestLogger.NewRequestLoggerBuilder)
  = false.
Proof. repeat split; try reflexivity; intros E; discriminate E. Qed.

(** ** The effects of the pipeline *)

Section Pipeline.

Lemma insert_at_end {A : Type} (l : list A) (x y : A) :
  <[length l := y]> (l ++ [x]) = l ++ [y].
Proof. induction l as [|a l IH]; simpl; [reflexivity | now rewrite IH]. Qed.

Lemma script_WriteHeader (st : Z) (l : list Step) :
  declared (CallWriteHeader st :: l) = st :: declared l /\
  calls (CallWriteHeader st :: l) = SinkWriteHeader st :: calls l /\
  duration (CallWriteHeader st :: l) = duration l.
Proof. repeat split. Qed.

Lemma script_Write (data : string) (l : list Step) :
  declared (CallWrite data :: l) = declared l /\
  calls (CallWrite data :: l) = SinkWrite data :: calls l /\
  duration (CallWrite data :: l) = duration l.
Proof. repeat split. Qed.

Lemma script_Elapse (ns : Z) (l : list Step) :
  declared (Elapse ns :: l) = declared l /\
  calls (Elapse ns :: l) = calls l /\
  duration (Elapse ns :: l) = ns + duration l.
Proof. repeat split. Qed.

Lemma observer_WriteHeader (a : nat) (st : Z) (s : World) :
  WriteHeader
    (ResponseRecorderWriter.as_writer {| embedded := client; addr := a |})
    st s
  = (Returned tt,
     set_sink (sink s ++ [SinkWriteHeader st])
       (set_recorders (<[a := st]> (recorders s)) s)).
Proof. reflexivity. Qed.

Lemma observer_Write (a : nat) (data : string) (s : World) :
  Write
    (ResponseRecorderWriter.as_writer {| embedded := client; addr := a |})
    data s
  = (Returned tt, set_sink (sink s ++ [SinkWrite data]) s).
Proof. reflexivity. Qed.

(** A script played through an observer at address [a] over [client]: the
    calls reach the sink unchanged and in order, the cell holds the last
    status declared (what it held before when none was), the clock moves by
    the script's duration, and nothing else changes. *)
Lemma play_through_observer (l : list Step) :
  forall (s : World) (a : nat) (now : Z),
    recorders s !! a = Some now ->
    play (ResponseRecorderWriter.as_writer {| embedded := client; addr := a |})
      l s
    = (Returned tt,
       {| log_lines := log_lines s;
          sink := sink s ++ calls l;
          recorders := <[a := default now (last (declared l))]> (recorders s);
          clock := clock s + duration l;
          in_flight := in_flight s |}).
Proof.
  induction l as [|c l IH]; intros s a now H.
  - cbn. rewrite app_nil_r, Z.add_0_r, list_insert_id by exact H.
    now destruct s.
  - cbn [play]. unfold bind. destruct c as [st|data|ns]; cbn [play_step].
    + destruct (script_WriteHeader st l) as (-> & -> & ->).
      rewrite observer_WriteHeader, (IH _ a st).
      * cbn [log_lines sink recorders clock in_flight set_sink
             set_recorders].
        rewrite list_insert_insert_eq, <- app_assoc.
        assert (E : default st (last (declared l))
                    = default now (last (st :: declared l))).
        { generalize (declared l). intros [|x d]; [reflexivity|].
          rewrite (last_cons st). now destruct (last (x :: d)). }
        now rewrite E.
      * cbn. apply list_lookup_insert_eq. now apply lookup_lt_Some in H.
    + destruct (script_Write data l) as (-> & -> & ->).
      rewrite observer_Write, (IH _ a now) by exact H.
      cbn [log_lines sink recorders clock in_flight set_sink].
      now rewrite <- app_assoc.
    + destruct (script_Elapse ns l) as (-> & -> & ->).
      rewrite (IH _ a now) by exact H.
      cbn [log_lines sink recorders clock in_flight set_clock].
      now rewrite Z.add_assoc.
Qed.

Lemma play_fresh_observer (l : list Step) (s : World) :
  play
    (ResponseRecorderWriter.as_writer
       {| embedded := client; addr := length (recorders s) |})
    l (set_recorders (recorders s ++ [StatusOK]) s)
  = (Returned tt, after_handler l s).
Proof.
  rewrite (play_through_observer l _ _ StatusOK).
  - cbn [log_lines sink recorders clock in_flight set_recorders].
    now rewrite insert_at_end.
  - cbn [recorders set_recorders]. now apply list_lookup_middle.
Qed.

(** [LoggerMiddleware] around a scripted handler, over [client]: the script
    runs against a fresh observer; when it returns, one line is logged with
    the observed status and the time that passed; when it panics, the panic
    goes through and nothing is logged. *)
Lemma LoggerMiddleware_scripted (h : Request -> Script) (r : Request)
  (s : World) :
  LoggerMiddleware (scripted h) client r s
  = match ending (h r) with
    | returns =>
        (Returned tt,
         set_log (log_lines s ++ [access_line r (steps (h r))])
           (after_handler (steps (h r)) s))
    | panics v => (Panicking v, after_handler (steps (h r)) s)
    end.
Proof.
  unfold LoggerMiddleware, scripted, bind, time_Now,
    ResponseRecorderWriter.new.
  rewrite play_fresh_observer.
  destruct (ending (h r)) as [|v]; cbn [finish ret panic]; [|reflexivity].
  unfold ResponseRecorderWriter.Status, time_Since, log_Println, access_line.
  cbn [recorders clock log_lines addr after_handler].
  rewrite list_lookup_middle by reflexivity.
  cbn [default]. now replace (clock s + duration (steps (h r)) - clock s)
    with (duration (steps (h r))) by lia.
Qed.

(** [RecoveryMiddleware] when the wrapped handler returns. *)
Lemma RecoveryMiddleware_returned (next : Handler) (w : ResponseWriter)
  (r : Request) (s s' : World) :
  next w r s = (Returned tt, s') ->
  in_flight s' = None ->
  RecoveryMiddleware next w r s = (Returned tt, s').
Proof.
  intros E N. unfold RecoveryMiddleware, defer_, bind, recover.
  now rewrite E, N.
Qed.

(** [RecoveryMiddleware] when [recover()] yields nil for the panic. *)
Lemma RecoveryMiddleware_nil (next : Handler) (w : ResponseWriter)
  (r : Request) (s s' : World) :
  next w r s = (Panicking any_nil, s') ->
  RecoveryMiddleware next w r s = (Returned tt, set_in_flight None s').
Proof.
  intros E. unfold RecoveryMiddleware, defer_, bind, recover.
  rewrite E. reflexivity.
Qed.

(** [RecoveryMiddleware] over [client] when the panic value is not nil. *)
Lemma RecoveryMiddleware_fault (next : Handler) (r : Request)
  (s s' : World) (v : Any) :
  next client r s = (Panicking v, s') ->
  v <> any_nil ->
  RecoveryMiddleware next client r s
  = (Returned tt,
     {| log_lines := log_lines s' ++ [fault_line r v];
        sink := sink s' ++ [SinkWriteHeader StatusInternalServerError];
        recorders := recorders s';
        clock := clock s';
        in_flight := None |}).
Proof.
  intros E N. unfold RecoveryMiddleware, defer_, bind, recover.
  rewrite E. cbn [in_flight set_in_flight].
  destruct v as [|msg|repr]; [now destruct N|reflexivity|reflexivity].
Qed.

End Pipeline.

(** ** The response observer *)

Lemma observed_status_snoc (l : list Step) (st : Z) :
  observed_status (l ++ [CallWriteHeader st]) = st.
Proof.
  unfold observed_status.
  replace (declared (l ++ [CallWriteHeader st])) with (declared l ++ [st])
    by (unfold declared; now rewrite omap_app).
  now rewrite last_snoc.
Qed.

Lemma final_code_not_informational (st : Z) :
  final_code st = true -> informational st = false.
Proof.
  unfold final_code. intros H. apply andb_true_iff in H as [_ H].
  now apply negb_true_iff in H.
Qed.

Lemma sent_status_app (l t : list SinkCall) :
  sent_status (l ++ t)
  = if committed l then sent_status l else sent_status t.
Proof.
  induction l as [|[st|data] l IH]; cbn [app sent_status committed existsb].
  - reflexivity.
  - destruct (informational st); cbn [negb orb]; [exact IH | reflexivity].
  - reflexivity.
Qed.

Lemma sent_is_observed (l : list Step) :
  declares_once_first l = true ->
  sent_status (calls l) = observed_status l.
Proof.
  unfold declares_once_first, observed_status.
  induction l as [|c l IH]; [reflexivity|].
  destruct c as [st|data|ns].
  - destruct (script_WriteHeader st l) as (-> & -> & _).
    destruct (declared l) as [|x d]; [|discriminate].
    intros H. apply andb_true_iff in H as [F _].
    cbn [sent_status]. now rewrite (final_code_not_informational st F).
  - destruct (script_Write data l) as (-> & -> & _).
    destruct (declared l) as [|x [|y d]]; [reflexivity| |discriminate].
    rewrite andb_false_r. discriminate.
  - destruct (script_Elapse ns l) as (-> & -> & _). exact IH.
Qed.

(** C8, as the code has it, for a handler that declares statuses the sink
    accepts (100 to 999; the sink panics on any other): the observer's
    status is 200 when the handler starts and stays 200 if [WriteHeader] is
    never called; every [WriteHeader(st)] stores [st] and passes the same
    call on to the underlying sink, so after any sequence of calls the
    observer holds the last status written and the sink has received the
    handler's calls unchanged and in order; the line [LoggerMiddleware] logs
    carries that status.  It is the status sent to the client when the
    handler calls [WriteHeader] at most once, with a final status code (101,
    or 200 to 999) and not after a [Write]: the sink takes the first final
    header write only, and an informational one does not set the status of
    the response. *)
Theorem observer_records_last_status :
  forall (l : list Step) (s : World),
    valid_script l = true ->
    (rr <- ResponseRecorderWriter.new client StatusOK ;;
     ResponseRecorderWriter.Status rr) s
    = (Returned 200, set_recorders (recorders s ++ [200]) s) /\
    (rr <- ResponseRecorderWriter.new client StatusOK ;;
     play (ResponseRecorderWriter.as_writer rr) l ;;;
     ResponseRecorderWriter.Status rr) s
    = (Returned (observed_status l), after_handler l s) /\
    sink (after_handler l s) = sink s ++ calls l /\
    (declared l = [] -> observed_status l = 200) /\
    (forall st,
       valid_code st = true ->
       observed_status (l ++ [CallWriteHeader st]) = st) /\
    (forall (rr : ResponseRecorderWriter) (st : Z) (w : World),
       embedded rr = client ->
       valid_code st = true ->
       ResponseRecorderWriter.WriteHeader rr st w
       = (Returned tt,
          set_sink (sink w ++ [SinkWriteHeader st])
            (set_recorders (<[addr rr := st]> (recorders w)) w))) /\
    (forall (h : Request -> Script) (r : Request),
       steps (h r) = l ->
       ending (h r) = returns ->
       LoggerMiddleware (scripted h) client r s
       = (Returned tt,
          set_log (log_lines s ++ [access_line r l]) (after_handler l s)) /\
       status
         (RequestLogger.SetSince (duration l)
            (RequestLogger.SetPath (URL_Path r)
               (RequestLogger.SetStatus (observed_status l)
                  (RequestLogger.SetMethod (Method r)
                     RequestLogger.NewRequestLoggerBuilder))))
       = observed_status l) /\
    (declares_once_first l = true ->
     sent_status (calls l) = observed_status l).
Proof.
  intros l s _. repeat split.
  - unfold bind, ResponseRecorderWriter.new, ResponseRecorderWriter.Status.
    cbn [addr recorders set_recorders].
    now rewrite list_lookup_middle by reflexivity.
  - unfold bind at 1 2, ResponseRecorderWriter.new.
    rewrite play_fresh_observer.
    unfold ResponseRecorderWriter.Status.
    cbn [addr recorders after_handler].
    now rewrite list_lookup_middle by reflexivity.
  - intros D. unfold observed_status. now rewrite D.
  - intros st _. apply observed_status_snoc.
  - intros rr st w E _. unfold ResponseRecorderWriter.WriteHeader, bind,
      ResponseRecorderWriter.set_Status. now rewrite E.
  - match goal with
    | Hs : steps _ = l, He : ending _ = returns |- _ =>
        rewrite LoggerMiddleware_scripted, Hs, He
    end.
    reflexivity.
  - apply sent_is_observed.
Qed.

Lemma observer_records_last_status_witness :
  valid_script [CallWriteHeader 404; CallWrite "not found"] = true /\
  declares_once_first [CallWriteHeader 404; CallWrite "not found"] = true /\
  sent_status (calls [CallWriteHeader 404; CallWrite "not found"])
  = observed_status [CallWriteHeader 404; CallWrite "not found"].
Proof.
  split; [reflexivity|]. split; [reflexivity|].
  apply (observer_records_last_status
           [CallWriteHeader 404; CallWrite "not found"] idle eq_refl).
  reflexivity.
Defined.

(** C8, as the claim words it, fails: a handler that declares 200 and then
    404 is logged with 404, and the sink, which received both calls, sends
    200. *)
Lemma logged_status_is_not_sent_status :
  let script :=
    {| steps := [CallWriteHeader 200; CallWriteHeader 404];
       ending := returns |} in
  let after :=
    snd (LoggerMiddleware (scripted (fun _ => script)) client get_root idle) in
  log_lines after = [RequestLogger.String (populated "GET" 404 "/" 0)] /\
  sink after = [SinkWriteHeader 200; SinkWriteHeader 404] /\
  sent_status (sink after) = 200 /\
  sent_status (sink after) <> observed_status (steps script).
Proof. repeat split. intros E. discriminate E. Qed.

(** A single [WriteHeader] does not make the two agree either when its code
    is informational: a handler that sends early hints (103) and then the
    body is logged with 103, and the client is answered 200. *)
Example early_hints_are_logged_as_the_status :
  let script :=
    {| steps := [CallWriteHeader 103; CallWrite "body"];
       ending := returns |} in
  let after :=
    snd (LoggerMiddleware (scripted (fun _ => script)) client get_root idle) in
  log_lines after = [RequestLogger.String (populated "GET" 103 "/" 0)] /\
  sink after = [SinkWriteHeader 103; SinkWrite "body"] /\
  sent_status (sink after) = 200 /\
  declares_once_first (steps script) = false.
Proof. repeat split. Qed.

(** ** The middleware chain *)

Lemma LoggerMiddleware_ext (next next' : Handler) (w : ResponseWriter)
  (r : Request) (s : World) :
  (forall w' s', next w' r s' = next' w' r s') ->
  LoggerMiddleware next w r s = LoggerMiddleware next' w r s.
Proof.
  intros E. unfold LoggerMiddleware, bind, time_Now,
    ResponseRecorderWriter.new.
  now rewrite E.
Qed.

Lemma RecoveryMiddleware_ext (next next' : Handler) (w : ResponseWriter)
  (r : Request) (s : World) :
  (forall w' s', next w' r s' = next' w' r s') ->
  RecoveryMiddleware next w r s = RecoveryMiddleware next' w r s.
Proof. intros E. unfold RecoveryMiddleware, defer_. now rewrite E. Qed.

Lemma chain_ext (next next' : Handler) (w : ResponseWriter) (r : Request)
  (s : World) :
  (forall w' s', next w' r s' = next' w' r s') ->
  chain next w r s = chain next' w r s.
Proof.
  intros E. unfold chain, Use. cbn [fold_right].
  apply RecoveryMiddleware_ext. intros w' s'.
  now apply LoggerMiddleware_ext.
Qed.

(** A script played on the sink itself. *)
Lemma play_client (l : list Step) :
  forall s : World,
    play client l s
    = (Returned tt,
       {| log_lines := log_lines s;
          sink := sink s ++ calls l;
          recorders := recorders s;
          clock := clock s + duration l;
          in_flight := in_flight s |}).
Proof.
  induction l as [|c l IH]; intros s.
  - cbn. rewrite app_nil_r, Z.add_0_r. now destruct s.
  - cbn [play]. unfold bind. destruct c as [st|data|ns]; cbn [play_step].
    + destruct (script_WriteHeader st l) as (_ & -> & ->).
      cbn [client WriteHeader]. rewrite IH.
      cbn [log_lines sink recorders clock in_flight set_sink].
      now rewrite <- app_assoc.
    + destruct (script_Write data l) as (_ & -> & ->).
      cbn [client Write]. rewrite IH.
      cbn [log_lines sink recorders clock in_flight set_sink].
      now rewrite <- app_assoc.
    + destruct (script_Elapse ns l) as (_ & -> & ->).
      rewrite IH.
      cbn [log_lines sink recorders clock in_flight set_clock].
      now rewrite Z.add_assoc.
Qed.

(** The runtime setting and the value a deferred call recovers. *)
Lemma recovered_value_not_nil (v : Any) : recovered_value false v <> any_nil.
Proof. destruct v; discriminate. Qed.

Lemma recovered_value_panicnil (v : Any) : recovered_value true v = v.
Proof. now destruct v. Qed.

Lemma scripted_on_as_recovered (panicnil : bool) (h : Request -> Script)
  (w : ResponseWriter) (r : Request) (s : World) :
  scripted_on panicnil h w r s
  = scripted (fun q => as_recovered panicnil (h q)) w r s.
Proof.
  unfold scripted_on, scripted, as_recovered. cbn [steps ending].
  destruct (ending (h r)); reflexivity.
Qed.

Lemma scripted_is_scripted_on (h : Request -> Script) (w : ResponseWriter)
  (r : Request) (s : World) :
  scripted h w r s = scripted_on true h w r s.
Proof.
  unfold scripted_on, scripted. destruct (ending (h r)) as [|v];
    [reflexivity|].
  cbn [finish finish_on]. now rewrite recovered_value_panicnil.
Qed.

(** A routed handler that ends in [panic(v)] unwinds, on the sink itself,
    with the value the runtime makes of [v]. *)
Lemma scripted_on_panics (panicnil : bool) (h : Request -> Script)
  (r : Request) (s : World) (v : Any) :
  ending (h r) = panics v ->
  scripted_on panicnil h client r s
  = (Panicking (recovered_value panicnil v),
     {| log_lines := log_lines s;
        sink := sink s ++ calls (steps (h r));
        recorders := recorders s;
        clock := clock s + duration (steps (h r));
        in_flight := in_flight s |}).
Proof.
  intros E. unfold scripted_on, bind. rewrite play_client, E. reflexivity.
Qed.

Lemma chain_scripted (h : Request -> Script) (r : Request) (s : World) :
  in_flight s = None ->
  exists s',
    chain (scripted h) client r s = (Returned tt, s') /\
    log_lines s' = log_lines s ++ chain_lines r (h r) /\
    in_flight s' = None.
Proof.
  intros N. unfold chain, Use. cbn [fold_right].
  pose proof (LoggerMiddleware_scripted h r s) as L.
  unfold chain_lines. destruct (ending (h r)) as [|v].
  - eexists. split; [|split].
    + apply (RecoveryMiddleware_returned _ _ _ _ _ L). exact N.
    + reflexivity.
    + exact N.
  - destruct v as [|msg|repr].
    + eexists. split; [|split].
      * apply (RecoveryMiddleware_nil _ _ _ _ _ L).
      * cbn. now rewrite app_nil_r.
      * reflexivity.
    + eexists. split; [|split].
      * apply (RecoveryMiddleware_fault _ _ _ _ _ L). discriminate.
      * reflexivity.
      * reflexivity.
    + eexists. split; [|split].
      * apply (RecoveryMiddleware_fault _ _ _ _ _ L). discriminate.
      * reflexivity.
      * reflexivity.
Qed.

(** C1: through the chain [main] installs, with [RecoveryMiddleware]
    outermost and [LoggerMiddleware] inside it, every request leaves exactly
    one log line, on every path: the request never ends in a panic, and the
    log grows by one line, which is the [String()] line of
    [LoggerMiddleware] when the handler returns and the [PanicString] line
    of [RecoveryMiddleware], and only that one, when the handler panics.
    The handler runs on the runtime as the program has it, where the value
    recovered from [panic(nil)] is a [*runtime.PanicNilError]. *)
Theorem chain_logs_exactly_one_line :
  forall (h : Request -> Script) (r : Request) (s : World),
    in_flight s = None ->
    exists (s' : World) (line : string),
      chain (scripted_on false h) client r s = (Returned tt, s') /\
      log_lines s' = log_lines s ++ [line] /\
      length (log_lines s') = S (length (log_lines s)) /\
      line = match ending (h r) with
             | returns => access_line r (steps (h r))
             | panics v => fault_line r (recovered_value false v)
             end.
Proof.
  intros h r s N.
  destruct (chain_scripted (fun q => as_recovered false (h q)) r s N)
    as (s' & E & L & _).
  rewrite <- (chain_ext (scripted_on false h)) in E
    by (intros w' s0; apply scripted_on_as_recovered).
  unfold chain_lines, as_recovered in L. cbn [ending steps] in L.
  assert (K : log_lines s'
              = log_lines s ++
                [match ending (h r) with
                 | returns => access_line r (steps (h r))
                 | panics v => fault_line r (recovered_value false v)
                 end]).
  { destruct (ending (h r)) as [|[|msg|repr]]; exact L. }
  exists s'. eexists. split; [exact E|]. split; [exact K|].
  split; [|reflexivity].
  rewrite K, length_app. cbn [length]. lia.
Qed.

Lemma chain_logs_exactly_one_line_witness :
  in_flight idle = None /\
  exists (s' : World) (line : string),
    chain
      (scripted_on false
         (fun _ => {| steps := [CallWrite "Ok: GET"];
                      ending := panics any_nil |}))
      client get_root idle = (Returned tt, s') /\
    log_lines s' = [] ++ [line] /\
    length (log_lines s') = 1%nat /\
    line = fault_line get_root PanicNilError.
Proof.
  split; [reflexivity|].
  exact (chain_logs_exactly_one_line
           (fun _ => {| steps := [CallWrite "Ok: GET"];
                        ending := panics any_nil |})
           get_root idle eq_refl).
Defined.

Example chain_on_a_returning_handler :
  log_lines
    (snd (chain
            (scripted_on false
               (fun _ => {| steps := [CallWriteHeader 404];
                            ending := returns |}))
            client get_root idle))
  = [RequestLogger.String (populated "GET" 404 "/" 0)].
Proof. reflexivity. Qed.

Example chain_on_panic_nil :
  let after :=
    snd (chain
           (scripted_on false
              (fun _ => {| steps := []; ending := panics any_nil |}))
           client get_root idle) in
  log_lines after
  = [ "| " +:+ Red colors +:+ "GET    " +:+ Reset colors +:+
      " | " +:+ Red colors +:+ "500" +:+ Reset colors +:+
      " |             | / " +:+ Red colors +:+
      "panic called with nil argument" +:+ Reset colors ] /\
  sink after = [SinkWriteHeader 500].
Proof. split; reflexivity. Qed.

(** C2: when the wrapped handler panics, [RecoveryMiddleware] stops the
    panic (the call returns), builds a logger with the method and the path of
    the request and the status 500, logs its [PanicString] line for the
    recovered value and calls [WriteHeader(500)] on the real sink, once
    each; when the wrapped handler returns, [RecoveryMiddleware] adds
    nothing: no log line, no call on the sink, the same result as the
    handler alone.  The recovered value is the one the runtime of the
    program makes of the argument of [panic], whatever the argument; a
    routed handler that ends in [panic(v)] unwinds with it. *)
Theorem RecoveryMiddleware_converts_faults :
  forall (next : Handler) (r : Request) (s s' : World),
    in_flight s' = None ->
    (next client r s = (Returned tt, s') ->
     RecoveryMiddleware next client r s = next client r s) /\
    (forall v : Any,
       next client r s = (Panicking (recovered_value false v), s') ->
       RecoveryMiddleware next client r s
       = (Returned tt,
          set_sink (sink s' ++ [SinkWriteHeader 500])
            (set_log
               (log_lines s' ++
                [RequestLogger.PanicString (fault_logger r)
                   (recovered_value false v)]) s')) /\
       RequestLogger.PanicString (fault_logger r) (recovered_value false v)
       = PanicString_as_specified (fault_logger r) (recovered_value false v)
       /\
       method (fault_logger r) = Method r /\
       path (fault_logger r) = URL_Path r /\
       status (fault_logger r) = 500) /\
    (forall (h : Request -> Script) (v : Any),
       ending (h r) = panics v ->
       exists s0,
         scripted_on false h client r s
         = (Panicking (recovered_value false v), s0) /\
         in_flight s0 = in_flight s).
Proof.
  intros next r s s' N. split; [|split].
  - intros E. rewrite E. now apply RecoveryMiddleware_returned.
  - intros v E. split; [|split; [|now repeat split]].
    + rewrite (RecoveryMiddleware_fault next r s s' _ E
                 (recovered_value_not_nil v)).
      unfold set_sink, set_log.
      cbn [log_lines sink recorders clock in_flight].
      now rewrite N.
    + now apply PanicString_as_specified_when_coloured.
  - intros h v E. eexists. split; [now apply scripted_on_panics|reflexivity].
Qed.

Lemma RecoveryMiddleware_converts_faults_witness :
  let boom :=
    scripted_on false
      (fun _ => {| steps := []; ending := panics (any_error "boom") |}) in
  in_flight idle = None /\
  boom client get_nil_pointer idle
  = (Panicking (recovered_value false (any_error "boom")), idle) /\
  RecoveryMiddleware boom client get_nil_pointer idle
  = (Returned tt,
     set_sink [SinkWriteHeader 500]
       (set_log
          [RequestLogger.PanicString (fault_logger get_nil_pointer)
             (any_error "boom")] idle)).
Proof.
  intros boom.
  split; [reflexivity|]. split; [reflexivity|].
  exact (proj1 (proj1 (proj2 (RecoveryMiddleware_converts_faults boom
                                get_nil_pointer idle idle eq_refl))
                  (any_error "boom") eq_refl)).
Defined.

(** C10: when the wrapped handler panics with a value for which [recover()]
    yields nil, [RecoveryMiddleware] still stops the panic, and it neither
    logs a fault line nor writes a status to the sink: the world is the one
    the handler left, whatever writer the middleware was given.  The branch
    that logs and writes 500 runs exactly when the recovered value is not
    nil. *)
Theorem RecoveryMiddleware_nil_panic :
  forall (next : Handler) (w : ResponseWriter) (r : Request) (s s' : World),
    next w r s = (Panicking any_nil, s') ->
    exists s'',
      RecoveryMiddleware next w r s = (Returned tt, s'') /\
      log_lines s'' = log_lines s' /\
      sink s'' = sink s' /\
      recorders s'' = recorders s' /\
      clock s'' = clock s' /\
      in_flight s'' = None.
Proof.
  intros next w r s s' E. exists (set_in_flight None s').
  split; [now apply RecoveryMiddleware_nil | now repeat split].
Qed.

Lemma RecoveryMiddleware_nil_panic_witness :
  let quiet :=
    scripted (fun _ => {| steps := [CallWrite "Ok: GET"];
                          ending := panics any_nil |}) in
  quiet client get_root idle
  = (Panicking any_nil, set_sink [SinkWrite "Ok: GET"] idle) /\
  exists s'',
    RecoveryMiddleware quiet client get_root idle = (Returned tt, s'') /\
    log_lines s'' = [] /\
    sink s'' = [SinkWrite "Ok: GET"] /\
    recorders s'' = [] /\
    clock s'' = 0 /\
    in_flight s'' = None.
Proof.
  intros quiet. split; [reflexivity|].
  exact (RecoveryMiddleware_nil_panic quiet client get_root idle
           (set_sink [SinkWrite "Ok: GET"] idle) eq_refl).
Defined.

Example chain_on_nil_pointer_route :
  log_lines
    (snd (chain
            (scripted
               (fun _ =>
                  {| steps := [];
                     ending :=
                       panics
                         (any_error
                            "runtime error: invalid memory address or nil pointer dereference") |}))
            client get_nil_pointer idle))
  = [ "| " +:+ Red colors +:+ "GET    " +:+ Reset colors +:+
      " | " +:+ Red colors +:+ "500" +:+ Reset colors +:+
      " |             | /nil_pointer " +:+ Red colors +:+
      "runtime error: invalid memory address or nil pointer dereference" +:+
      Reset colors ].
Proof. reflexivity. Qed.

(** ** The lifecycle controller *)

Section LifecycleFacts.

Import Lifecycle.

Lemma shape_boot : shape boot.
Proof. now apply shape_receiving. Qed.

Lemma is_relayed_interrupt_only (p : Proc) (s : Signal) :
  relayed p = [SIGINT] -> is_relayed s p = true <-> s = SIGINT.
Proof.
  intros R. unfold is_relayed. rewrite R.
  destruct s; cbn; split; intros H; try reflexivity; discriminate H.
Qed.

Lemma shape_step (p : Proc) (e : Event) : shape p -> shape (step p e).
Proof.
  intros [R T L B|R T L C|X|s K N]; unfold step.
  - rewrite R. destruct e as [s|err|b].
    + destruct (is_relayed s p) eqn:I.
      * rewrite T, B. apply shape_draining; cbn; auto.
      * apply shape_killed with s; [reflexivity|].
        intros ->. unfold is_relayed in I. rewrite L in I. discriminate I.
    + destruct (serving p); [|now apply shape_receiving].
      now apply shape_receiving.
    + rewrite T. now apply shape_receiving.
  - rewrite R. destruct e as [s|err|b].
    + destruct (is_relayed s p) eqn:I.
      * rewrite T. now apply shape_draining.
      * apply shape_killed with s; [reflexivity|].
        intros ->. unfold is_relayed in I. rewrite L in I. discriminate I.
    + destruct (serving p); now apply shape_draining.
    + rewrite T. now apply shape_exited.
  - rewrite X. now apply shape_exited.
  - rewrite K. now apply shape_killed with s.
Qed.

Lemma shape_fold (evs : list Event) :
  forall p, shape p -> shape (fold_left step evs p).
Proof.
  induction evs as [|e evs IH]; intros p H; [exact H|].
  cbn [fold_left]. apply IH, shape_step, H.
Qed.

Lemma shape_run_events (evs : list Event) : shape (run_events evs).
Proof. apply shape_fold, shape_boot. Qed.

Lemma phase_receiving (p : Proc) :
  status_ p = Running -> todo p = at_receive -> phase p = Listening.
Proof. intros R T. unfold phase. now rewrite R, T. Qed.

Lemma phase_draining (p : Proc) :
  status_ p = Running -> todo p = at_shutdown ->
  phase p = ShuttingDown (ctx p).
Proof. intros R T. unfold phase. now rewrite R, T. Qed.

Lemma phase_exited (p : Proc) (code : Z) :
  status_ p = Exited code -> phase p = Stopped code.
Proof. intros X. unfold phase. now rewrite X. Qed.

Lemma phase_killed (p : Proc) (s : Signal) :
  status_ p = Killed s -> phase p = Terminated s.
Proof. intros K. unfold phase. now rewrite K. Qed.

(** From the receive: only the interrupt moves [main] on, to a shutdown
    with the 15 second context; any other signal ends the process. *)
Lemma step_from_receive (p : Proc) :
  status_ p = Running -> todo p = at_receive ->
  relayed p = [SIGINT] -> buffered p = None ->
  (forall e t, phase (step p e) = ShuttingDown t -> e = Deliver SIGINT) /\
  phase (step p (Deliver SIGINT))
  = ShuttingDown (Some (Duration.Second * 15)) /\
  (forall s, s <> SIGINT -> phase (step p (Deliver s)) = Terminated s).
Proof.
  destruct p as [td sv rl bf cx ou st]. cbn [status_ todo relayed buffered].
  intros -> -> -> ->. split; [|split].
  - intros e t. destruct e as [s|err|b].
    + destruct s; cbn; intros E; try discriminate E. reflexivity.
    + destruct sv; cbn; intros E; discriminate E.
    + cbn. intros E. discriminate E.
  - reflexivity.
  - intros s N. destruct s; try reflexivity. now destruct N.
Qed.

(** From the shutdown: when [Shutdown] returns, in time or not, [main] logs
    the notice and exits with code 0. *)
Lemma step_from_shutdown (p : Proc) (timed_out : bool) :
  status_ p = Running -> todo p = at_shutdown ->
  phase (step p (ShutdownReturned timed_out)) = Stopped 0 /\
  out (step p (ShutdownReturned timed_out)) = out p ++ ["| Shutting down"].
Proof.
  destruct p as [td sv rl bf cx ou st]. cbn [status_ todo].
  intros -> ->. split; reflexivity.
Qed.

End LifecycleFacts.

(** C9: once [main] has started the listener it waits in the receive on the
    signal channel ([Listening]); [signal.Notify] relays the interrupt
    signal and no other; an event moves the process from [Listening] to
    [ShuttingDown] only if it is the delivery of SIGINT, which does so with a
    shutdown context of 15 seconds; any other signal ends the process by its
    default disposition; and when [Shutdown] returns, whether it drained in
    time or the deadline passed, the shutdown notice is logged and the
    process exits with code 0, the only exit code [main] ever gives. *)
Theorem lifecycle_interrupt_then_exit_zero :
  forall (evs : list Lifecycle.Event),
    Lifecycle.phase Lifecycle.boot = Lifecycle.Listening /\
    (forall s,
       Lifecycle.is_relayed s Lifecycle.boot = true <-> s = Lifecycle.SIGINT) /\
    (Lifecycle.phase (Lifecycle.run_events evs) = Lifecycle.Listening ->
     (forall e t,
        Lifecycle.phase (Lifecycle.step (Lifecycle.run_events evs) e)
        = Lifecycle.ShuttingDown t ->
        e = Lifecycle.Deliver Lifecycle.SIGINT) /\
     Lifecycle.phase
       (Lifecycle.step (Lifecycle.run_events evs)
          (Lifecycle.Deliver Lifecycle.SIGINT))
     = Lifecycle.ShuttingDown (Some (Duration.Second * 15)) /\
     (forall s,
        s <> Lifecycle.SIGINT ->
        Lifecycle.phase
          (Lifecycle.step (Lifecycle.run_events evs) (Lifecycle.Deliver s))
        = Lifecycle.Terminated s)) /\
    (forall t,
       Lifecycle.phase (Lifecycle.run_events evs) = Lifecycle.ShuttingDown t ->
       t = Some 15000000000 /\
       forall timed_out,
         Lifecycle.phase
           (Lifecycle.step (Lifecycle.run_events evs)
              (Lifecycle.ShutdownReturned timed_out))
         = Lifecycle.Stopped 0 /\
         Lifecycle.out
           (Lifecycle.step (Lifecycle.run_events evs)
              (Lifecycle.ShutdownReturned timed_out))
         = Lifecycle.out (Lifecycle.run_events evs) ++ ["| Shutting down"]) /\
    (forall code,
       Lifecycle.phase (Lifecycle.run_events evs) = Lifecycle.Stopped code ->
       code = 0).
Proof.
  intros evs. split; [reflexivity|]. split.
  { intros s. now apply is_relayed_interrupt_only. }
  destruct (shape_run_events evs) as [R T L B|R T L C|X|s K N].
  - rewrite (phase_receiving _ R T).
    split; [intros _; now apply step_from_receive|].
    split; [intros t E; discriminate E | intros code E; discriminate E].
  - rewrite (phase_draining _ R T).
    split; [intros E; discriminate E|].
    split; [|intros code E; discriminate E].
    intros t E. injection E as <-. split; [exact C|].
    intros timed_out. now apply step_from_shutdown.
  - rewrite (phase_exited _ _ X).
    split; [intros E; discriminate E|].
    split; [intros t E; discriminate E|].
    intros code E. now injection E as <-.
  - rewrite (phase_killed _ _ K).
    split; [intros E; discriminate E|].
    split; [intros t E; discriminate E | intros code E; discriminate E].
Qed.

Lemma lifecycle_interrupt_then_exit_zero_witness :
  Lifecycle.phase (Lifecycle.run_events [Lifecycle.Deliver Lifecycle.SIGINT])
  = Lifecycle.ShuttingDown (Some 15000000000) /\
  Lifecycle.phase
    (Lifecycle.run_events
       [Lifecycle.Deliver Lifecycle.SIGINT; Lifecycle.ShutdownReturned true])
  = Lifecycle.Stopped 0 /\
  Lifecycle.phase
    (Lifecycle.run_events
       [Lifecycle.Deliver Lifecycle.SIGINT; Lifecycle.ShutdownReturned false])
  = Lifecycle.Stopped 0.
Proof.
  pose proof (lifecycle_interrupt_then_exit_zero
                [Lifecycle.Deliver Lifecycle.SIGINT]) as (_ & _ & _ & D & _).
  destruct (D (Some 15000000000) eq_refl) as [_ S].
  split; [reflexivity|]. split; [exact (proj1 (S true)) | exact (proj1 (S false))].
Defined.

Example lifecycle_sigterm_is_not_caught :
  Lifecycle.phase (Lifecycle.run_events [Lifecycle.Deliver Lifecycle.SIGTERM])
  = Lifecycle.Terminated Lifecycle.SIGTERM.
Proof. reflexivity. Qed.

Example lifecycle_listen_error_keeps_waiting :
  Lifecycle.phase
    (Lifecycle.run_events [Lifecycle.ListenFailed "address already in use"])
  = Lifecycle.Listening.
Proof. reflexivity. Qed.

(** * The rest of the program *)

(** ** The builder *)

Section BuilderFacts.

Lemma build_snoc (cs : list Setter) (c : Setter) :
  build (cs ++ [c]) = apply_setter (build cs) c.
Proof. unfold build. now rewrite fold_left_app. Qed.

Lemma last_omap_snoc {A B : Type} (f : A -> option B) (l : list A) (x : A) :
  last (omap f (l ++ [x]))
  = match f x with Some y => Some y | None => last (omap f l) end.
Proof.
  rewrite omap_app.
  change (omap f [x]) with (match f x with Some y => [y] | None => [] end).
  destruct (f x) as [y|].
  - apply last_snoc.
  - now rewrite app_nil_r.
Qed.

End BuilderFacts.

(** X1: whatever the order and the number of the setter calls, each field of
    the built logger is the argument of the last call of its setter, or the
    zero value when the setter was never called; the colour is
    [GetStatusColor] of the last status set, and empty when no status was
    set. *)
Theorem builder_last_call_wins :
  forall cs : list Setter,
    method (build cs) = default "" (last_method cs) /\
    path (build cs) = default "" (last_path cs) /\
    since (build cs) = default 0 (last_since cs) /\
    status (build cs) = default 0 (last_status cs) /\
    color (build cs) = from_option GetStatusColor "" (last_status cs).
Proof.
  induction cs as [|c cs IH] using rev_ind; [now repeat split|].
  destruct IH as (Hm & Hp & Hd & Hs & Hc).
  unfold last_method, last_path, last_since, last_status in *.
  rewrite build_snoc, !last_omap_snoc.
  destruct c as [m|p|d|st]; cbn; now repeat split.
Qed.

Example builder_later_status_wins :
  build [CallSetStatus 200; CallSetPath "/a"; CallSetStatus 404;
         CallSetPath "/b"]
  = {| method := ""; status := 404; since := 0; path := "/b";
       color := Magenta colors |}.
Proof. reflexivity. Qed.

(** ** Padding twice, and the width of the columns *)

Lemma repeat_nat_add (s : string) (a b : nat) :
  repeat_nat s (a + b) = repeat_nat s a +:+ repeat_nat s b.
Proof.
  induction a as [|a IH]; [reflexivity|].
  cbn [repeat_nat Nat.add]. now rewrite IH, append_assoc.
Qed.

(** X2: padding a padded value is padding once to the larger of the two
    widths; in particular padding again to the same or to a smaller width
    changes nothing.  The widths and the length of the value are below
    [2^53]. *)
Theorem pad_of_padded :
  forall (rl : RequestLogger) (n m : Z) (v : Value),
    0 <= n < 2 ^ 53 ->
    0 <= m < 2 ^ 53 ->
    len (Sprint v) < 2 ^ 53 ->
    RequestLogger.pad rl m (VString (RequestLogger.pad rl n v))
    = RequestLogger.pad rl (Z.max m n) v.
Proof.
  intros rl n m v Hn Hm Hv. pose proof (len_nonneg (Sprint v)) as H0.
  assert (Rn : Float64.min_int64 <= n - len (Sprint v) < 2 ^ 53)
    by (unfold Float64.min_int64; lia).
  assert (Rx : Float64.min_int64 <= Z.max m n - len (Sprint v) < 2 ^ 53)
    by (unfold Float64.min_int64; lia).
  rewrite (pad_unfold rl n v Rn), (pad_unfold rl (Z.max m n) v Rx).
  set (s := Sprint v +:+ Repeat " " (Z.max (n - len (Sprint v)) 0)).
  assert (Ls : len s = Z.max (len (Sprint v)) n).
  { unfold s. rewrite len_append, len_Repeat_space. lia. }
  assert (Rm : Float64.min_int64 <= m - len (Sprint (VString s)) < 2 ^ 53).
  { cbn [Sprint]. rewrite Ls. unfold Float64.min_int64. lia. }
  rewrite (pad_unfold rl m (VString s) Rm). cbn [Sprint]. rewrite Ls.
  unfold s. rewrite append_assoc. f_equal.
  unfold Repeat. rewrite <- repeat_nat_add. f_equal. lia.
Qed.

Lemma pad_of_padded_witness :
  0 <= 7 < 2 ^ 53 /\ 0 <= 12 < 2 ^ 53 /\
  len (Sprint (VString "GET")) < 2 ^ 53 /\
  RequestLogger.pad RequestLogger.NewRequestLoggerBuilder 12
    (VString (RequestLogger.pad RequestLogger.NewRequestLoggerBuilder 7
                (VString "GET")))
  = RequestLogger.pad RequestLogger.NewRequestLoggerBuilder 12 (VString "GET").
Proof.
  assert (H7 : 0 <= 7 < 2 ^ 53) by (split; [discriminate | reflexivity]).
  assert (H12 : 0 <= 12 < 2 ^ 53) by (split; [discriminate | reflexivity]).
  assert (HL : len (Sprint (VString "GET")) < 2 ^ 53) by reflexivity.
  split; [exact H7|]. split; [exact H12|]. split; [exact HL|].
  exact (pad_of_padded RequestLogger.NewRequestLoggerBuilder 7 12
           (VString "GET") H7 H12 HL).
Defined.

Lemma len_GetStatusColor (st : Z) : len (GetStatusColor st) = 5.
Proof.
  unfold GetStatusColor.
  repeat match goal with
         | |- context [if ?b then _ else _] => destruct b
         end; reflexivity.
Qed.

Lemma Itoa_three_digits (st : Z) : 100 <= st <= 999 -> len (Itoa st) = 3.
Proof.
  intros H.
  assert (A : forallb (fun k => len (Itoa (Z.of_nat k)) =? 3) (seq 100 900)
              = true) by (vm_compute; reflexivity).
  rewrite forallb_forall in A. specialize (A (Z.to_nat st)).
  rewrite Z2Nat.id in A by lia. apply Z.eqb_eq, A, in_seq. lia.
Qed.

Lemma len_pad (rl : RequestLogger) (n : Z) (v : Value) :
  0 <= n < 2 ^ 53 -> len (Sprint v) <= n ->
  len (RequestLogger.pad rl n v) = n.
Proof.
  intros Hn Hv. pose proof (len_nonneg (Sprint v)) as H0.
  rewrite pad_unfold by (unfold Float64.min_int64; lia).
  rewrite len_append, len_Repeat_space. lia.
Qed.

(** X3: the columns of a [String()] line have a fixed width.  For a logger
    whose status was set to a three-digit code, whose method has at most 7
    bytes and whose elapsed time renders in at most 12 bytes, the path starts
    at byte 51 of the line: every colour marker has 5 bytes and the reset
    marker 4, so the line is two padded columns of 16 and 12 bytes, the
    elapsed column of 12 and the separators. *)
Theorem String_columns_aligned :
  forall rl : RequestLogger,
    color rl = GetStatusColor (status rl) ->
    len (method rl) <= 7 ->
    100 <= status rl <= 999 ->
    len (Duration.String (since rl)) <= 12 ->
    exists columns,
      RequestLogger.String rl = columns +:+ path rl /\
      len columns = 51.
Proof.
  intros rl C M S D.
  exists ("| " +:+ (color rl +:+ RequestLogger.pad rl 7 (VString (method rl))
                    +:+ Reset colors) +:+
          " | " +:+ (color rl +:+ Itoa (status rl) +:+ Reset colors) +:+
          " | " +:+ RequestLogger.pad rl 12 (VDuration (since rl)) +:+ " | ").
  split.
  - rewrite String_line, !append_assoc. reflexivity.
  - rewrite !len_append, C, len_GetStatusColor, (Itoa_three_digits _ S).
    rewrite !len_pad; [reflexivity| | | |]; cbn [Sprint]; try assumption;
      split; (discriminate || reflexivity).
Qed.

Lemma String_columns_aligned_witness :
  exists columns,
    RequestLogger.String (populated "GET" 404 "/missing" 1500000)
    = columns +:+ "/missing" /\
    len columns = 51.
Proof.
  apply (String_columns_aligned (populated "GET" 404 "/missing" 1500000)).
  - reflexivity.
  - vm_compute. intros E. discriminate E.
  - split; vm_compute; intros E; discriminate E.
  - vm_compute. intros E. discriminate E.
Defined.

(** A method longer than 7 bytes and an elapsed time of ten seconds or more
    with nine decimals push the later columns to the right: nothing is cut. *)
Example String_columns_overflow :
  RequestLogger.String (populated "PROPFIND" 207 "/dav" 12345678901)
  = "| " +:+ Green colors +:+ "PROPFIND" +:+ Reset colors +:+
    " | " +:+ Green colors +:+ "207" +:+ Reset colors +:+
    " | 12.345678901s | /dav".
Proof. reflexivity. Qed.

(** ** More on the pipeline *)

Section PipelineMore.

(** The middlewares only call the handler they wrap: handlers that agree on
    a request give the same wrapped handler on that request. *)
Lemma http_Error_scripted (msg : string) (code : Z) (w : ResponseWriter)
  (r : Request) (s : World) :
  http_Error w msg code s = scripted (fun _ => error_script msg code) w r s.
Proof.
  unfold http_Error, scripted, error_script, bind.
  cbn [steps ending play play_step finish]. unfold bind.
  destruct (WriteHeader w code s) as [[[]|v] s1]; [|reflexivity].
  destruct (Write w (msg +:+ newline) s1) as [[[]|v] s2]; reflexivity.
Qed.

Lemma get_not_allowed_scripted (w : ResponseWriter) (r : Request)
  (s : World) :
  get_not_allowed w r s
  = scripted
      (fun r' => {| steps := [CallWrite ("Ok: " +:+ Method r')];
                    ending := returns |}) w r s.
Proof.
  unfold get_not_allowed, scripted, bind.
  cbn [steps ending play play_step finish]. unfold bind.
  destruct (Write w ("Ok: " +:+ Method r) s) as [[[]|v] s1]; reflexivity.
Qed.

Lemma nil_pointer_scripted (w : ResponseWriter) (r : Request) (s : World) :
  nil_pointer w r s
  = scripted
      (fun _ => {| steps := [];
                   ending := panics (any_error nil_dereference) |}) w r s.
Proof. reflexivity. Qed.

Lemma chain_sink (h : Request -> Script) (r : Request) (s : World) :
  in_flight s = None ->
  exists s',
    chain (scripted h) client r s = (Returned tt, s') /\
    log_lines s' = log_lines s ++ chain_lines r (h r) /\
    sink s'
    = sink s ++ calls (steps (h r)) ++
      match ending (h r) with
      | returns | panics any_nil => []
      | panics _ => [SinkWriteHeader 500]
      end /\
    clock s' = clock s + duration (steps (h r)).
Proof.
  intros N. unfold chain, Use. cbn [fold_right].
  pose proof (LoggerMiddleware_scripted h r s) as L.
  unfold chain_lines. destruct (ending (h r)) as [|v].
  - eexists. split; [apply (RecoveryMiddleware_returned _ _ _ _ _ L N)|].
    cbn. now rewrite app_nil_r.
  - destruct v as [|msg|repr].
    + eexists. split; [apply (RecoveryMiddleware_nil _ _ _ _ _ L)|].
      cbn. now rewrite !app_nil_r.
    + eexists. split;
        [apply (RecoveryMiddleware_fault _ _ _ _ _ L); discriminate|].
      cbn. now rewrite <- app_assoc.
    + eexists. split;
        [apply (RecoveryMiddleware_fault _ _ _ _ _ L); discriminate|].
      cbn. now rewrite <- app_assoc.
Qed.

End PipelineMore.

(** X4: [LoggerMiddleware] has no fault trap of its own.  When the handler
    it wraps panics, the panic goes through it with its value, no line is
    logged, and the calls the handler made before it panicked have reached
    the sink. *)
Theorem LoggerMiddleware_lets_panics_through :
  forall (h : Request -> Script) (r : Request) (s : World) (v : Any),
    ending (h r) = panics v ->
    exists s',
      LoggerMiddleware (scripted h) client r s = (Panicking v, s') /\
      log_lines s' = log_lines s /\
      sink s' = sink s ++ calls (steps (h r)).
Proof.
  intros h r s v E. rewrite LoggerMiddleware_scripted, E.
  eexists. split; [reflexivity|]. now split.
Qed.

Lemma LoggerMiddleware_lets_panics_through_witness :
  exists s',
    LoggerMiddleware
      (scripted (fun _ => {| steps := [CallWrite "partial"];
                             ending := panics (any_other "boom") |}))
      client get_root idle = (Panicking (any_other "boom"), s') /\
    log_lines s' = [] /\
    sink s' = [SinkWrite "partial"].
Proof.
  exact (LoggerMiddleware_lets_panics_through
           (fun _ => {| steps := [CallWrite "partial"];
                        ending := panics (any_other "boom") |})
           get_root idle (any_other "boom") eq_refl).
Defined.

(** X5: the chain does not stand between the handler and the client.  The
    sink receives the calls of the handler unchanged and in order, as when
    the handler is run on the sink directly, and the same time passes; the
    chain adds one call, [WriteHeader(500)], after the calls of a handler
    that panicked with a non-nil value, and none otherwise. *)
Theorem chain_is_transparent :
  forall (h : Request -> Script) (r : Request) (s : World),
    in_flight s = None ->
    exists s' s0 o,
      chain (scripted h) client r s = (Returned tt, s') /\
      scripted h client r s = (o, s0) /\
      sink s0 = sink s ++ calls (steps (h r)) /\
      sink s'
      = sink s0 ++
        match ending (h r) with
        | returns | panics any_nil => []
        | panics _ => [SinkWriteHeader 500]
        end /\
      clock s' = clock s0.
Proof.
  intros h r s N. destruct (chain_sink h r s N) as (s' & E & _ & K & C).
  unfold scripted, bind. rewrite play_client.
  destruct (ending (h r)) as [|v]; cbn [finish ret panic].
  - eexists _, _, _. split; [exact E|]. split; [reflexivity|].
    cbn [sink clock]. rewrite K, C, !app_nil_r. now repeat split.
  - eexists _, _, _. split; [exact E|]. split; [reflexivity|].
    cbn [sink clock]. rewrite K, C, app_assoc. now repeat split.
Qed.

Lemma chain_is_transparent_witness :
  in_flight idle = None /\
  exists s' s0 o,
    chain
      (scripted (fun _ => {| steps := [CallWriteHeader 201; CallWrite "made"];
                             ending := returns |}))
      client get_root idle = (Returned tt, s') /\
    scripted (fun _ => {| steps := [CallWriteHeader 201; CallWrite "made"];
                          ending := returns |})
      client get_root idle = (o, s0) /\
    sink s0 = [SinkWriteHeader 201; SinkWrite "made"] /\
    sink s' = sink s0 ++ [] /\
    clock s' = clock s0.
Proof.
  split; [reflexivity|].
  exact (chain_is_transparent
           (fun _ => {| steps := [CallWriteHeader 201; CallWrite "made"];
                        ending := returns |})
           get_root idle eq_refl).
Defined.

(** X6: a fault is answered with the status 500 only if the handler had not
    yet committed the header of its response.  When a handler that declares
    statuses the sink accepts panics with a non-nil value, the sink has the
    handler's calls followed by [WriteHeader(500)]; the status the client is
    sent is 500 when those calls held no [Write] and no final (other than
    informational) [WriteHeader], and the status they had already fixed
    otherwise. *)
Theorem fault_after_output_keeps_first_status :
  forall (h : Request -> Script) (r : Request) (s : World) (v : Any),
    in_flight s = None ->
    ending (h r) = panics v ->
    v <> any_nil ->
    valid_script (steps (h r)) = true ->
    exists s',
      chain (scripted h) client r s = (Returned tt, s') /\
      sink s' = sink s ++ calls (steps (h r)) ++ [SinkWriteHeader 500] /\
      (committed (calls (steps (h r))) = false ->
       sent_status (calls (steps (h r)) ++ [SinkWriteHeader 500]) = 500) /\
      (committed (calls (steps (h r))) = true ->
       sent_status (calls (steps (h r)) ++ [SinkWriteHeader 500])
       = sent_status (calls (steps (h r)))).
Proof.
  intros h r s v N E V _.
  destruct (chain_sink h r s N) as (s' & R & _ & K & _).
  exists s'. split; [exact R|]. rewrite E in K. split.
  - rewrite K. now destruct v.
  - rewrite sent_status_app. split; intros ->; reflexivity.
Qed.

Lemma fault_after_output_keeps_first_status_witness :
  let h := fun _ : Request =>
             {| steps := [CallWriteHeader 103; CallWrite "Ok: GET"];
                ending := panics (any_error "boom") |} in
  let early := fun _ : Request =>
             {| steps := [CallWriteHeader 103];
                ending := panics (any_error "boom") |} in
  in_flight idle = None /\
  any_error "boom" <> any_nil /\
  (exists s',
     chain (scripted h) client get_root idle = (Returned tt, s') /\
     sink s'
     = [SinkWriteHeader 103; SinkWrite "Ok: GET"; SinkWriteHeader 500] /\
     sent_status (sink s') = 200) /\
  (exists s',
     chain (scripted early) client get_root idle = (Returned tt, s') /\
     sink s' = [SinkWriteHeader 103; SinkWriteHeader 500] /\
     sent_status (sink s') = 500).
Proof.
  intros h early.
  assert (V : any_error "boom" <> any_nil) by discriminate.
  split; [reflexivity|]. split; [exact V|]. split.
  - destruct (fault_after_output_keeps_first_status h get_root idle
                (any_error "boom") eq_refl eq_refl V eq_refl)
      as (s' & R & K & _ & C).
    exists s'. split; [exact R|]. split; [exact K|].
    rewrite K. exact (C eq_refl).
  - destruct (fault_after_output_keeps_first_status early get_root idle
                (any_error "boom") eq_refl eq_refl V eq_refl)
      as (s' & R & K & F & _).
    exists s'. split; [exact R|]. split; [exact K|].
    rewrite K. exact (F eq_refl).
Defined.

Example fault_after_output_sends_200 :
  sent_status [SinkWrite "Ok: GET"; SinkWriteHeader 500] = 200.
Proof. reflexivity. Qed.

(** [RecoveryMiddleware] when it is given the observer of an outer
    [LoggerMiddleware] as its writer. *)
Lemma RecoveryMiddleware_inside_observer (h : Request -> Script)
  (r : Request) (s : World) :
  in_flight s = None ->
  RecoveryMiddleware (scripted h)
    (ResponseRecorderWriter.as_writer
       {| embedded := client; addr := length (recorders s) |})
    r (set_recorders (recorders s ++ [StatusOK]) s)
  = (Returned tt,
     match ending (h r) with
     | returns | panics any_nil => after_handler (steps (h r)) s
     | panics v =>
         {| log_lines := log_lines s ++ [fault_line r v];
            sink := sink s ++ calls (steps (h r)) ++ [SinkWriteHeader 500];
            recorders := recorders s ++ [500];
            clock := clock s + duration (steps (h r));
            in_flight := None |}
     end).
Proof.
  intros N. unfold RecoveryMiddleware, defer_, scripted, bind.
  rewrite play_fresh_observer.
  destruct (ending (h r)) as [|[|msg|repr]]; cbn [finish ret panic].
  - unfold recover. cbn [in_flight after_handler]. now rewrite N.
  - unfold recover. cbn [in_flight set_in_flight after_handler].
    unfold set_in_flight, after_handler.
    cbn [log_lines sink recorders clock in_flight]. now rewrite N.
  - unfold recover, log_Println. cbn [in_flight set_in_flight].
    rewrite observer_WriteHeader.
    cbn [log_lines sink recorders clock in_flight set_in_flight
         set_log set_sink set_recorders after_handler].
    now rewrite insert_at_end, <- app_assoc.
  - unfold recover, log_Println. cbn [in_flight set_in_flight].
    rewrite observer_WriteHeader.
    cbn [log_lines sink recorders clock in_flight set_in_flight
         set_log set_sink set_recorders after_handler].
    now rewrite insert_at_end, <- app_assoc.
Qed.

(** X7: the order of the two middlewares matters.  With [LoggerMiddleware]
    outermost and [RecoveryMiddleware] inside it, a handler that panics with
    a non-nil value leaves two lines, the fault line and then a [String()]
    line with the status 500 that the recovery wrote through the observer;
    and a panic whose recovered value is nil is logged like a request that
    completed, with the status the handler had declared. *)
Theorem reversed_chain_logs_faults_twice :
  forall (h : Request -> Script) (r : Request) (s : World),
    in_flight s = None ->
    exists s',
      reversed_chain (scripted h) client r s = (Returned tt, s') /\
      log_lines s'
      = log_lines s ++
        match ending (h r) with
        | returns | panics any_nil => [access_line r (steps (h r))]
        | panics v =>
            [ fault_line r v;
              RequestLogger.String
                (populated (Method r) 500 (URL_Path r)
                   (duration (steps (h r)))) ]
        end.
Proof.
  intros h r s N. unfold reversed_chain, Use. cbn [fold_right].
  unfold LoggerMiddleware, bind, time_Now, ResponseRecorderWriter.new.
  rewrite (RecoveryMiddleware_inside_observer h r s N).
  unfold ResponseRecorderWriter.Status, time_Since, log_Println.
  cbn [addr].
  destruct (ending (h r)) as [|[|msg|repr]];
    cbn [after_handler recorders clock log_lines];
    rewrite list_lookup_middle by reflexivity; cbn [default];
    replace (clock s + duration (steps (h r)) - clock s)
      with (duration (steps (h r))) by lia;
    eexists; (split; [reflexivity|]); cbn [log_lines set_log];
    rewrite <- ?app_assoc; reflexivity.
Qed.

Lemma reversed_chain_logs_faults_twice_witness :
  in_flight idle = None /\
  exists s',
    reversed_chain nil_pointer client get_nil_pointer idle
    = (Returned tt, s') /\
    log_lines s'
    = [ fault_line get_nil_pointer (any_error nil_dereference);
        RequestLogger.String (populated "GET" 500 "/nil_pointer" 0) ].
Proof.
  split; [reflexivity|].
  exact (reversed_chain_logs_faults_twice
           (fun _ => {| steps := [];
                        ending := panics (any_error nil_dereference) |})
           get_nil_pointer idle eq_refl).
Defined.

(** X8: the two error handlers of the router log what they answer.  For every
    request, [NotFoundHandler] and [MethodNotAllowedHandler] return without
    a panic, send [WriteHeader] with 404, respectively 405, followed by the
    message line of [http.Error], and log exactly one [String()] line, which
    carries the method and the path of the request and that same status. *)
Theorem error_handlers_log_their_status :
  forall (r : Request) (s : World),
    (exists s' d,
       NotFoundHandler client r s = (Returned tt, s') /\
       sink s'
       = sink s ++ [SinkWriteHeader 404;
                    SinkWrite ("404 page not found" +:+ newline)] /\
       log_lines s'
       = log_lines s ++
         [RequestLogger.String (populated (Method r) 404 (URL_Path r) d)]) /\
    (exists s' d,
       MethodNotAllowedHandler client r s = (Returned tt, s') /\
       sink s' = sink s ++ [SinkWriteHeader 405; SinkWrite newline] /\
       log_lines s'
       = log_lines s ++
         [RequestLogger.String (populated (Method r) 405 (URL_Path r) d)]) /\
    sent_status [SinkWriteHeader 404;
                 SinkWrite ("404 page not found" +:+ newline)] = 404 /\
    sent_status [SinkWriteHeader 405; SinkWrite newline] = 405.
Proof.
  intros r s. split; [|split; [|now split]].
  - unfold NotFoundHandler, http_NotFound.
    rewrite (LoggerMiddleware_ext _
               (scripted (fun _ => error_script "404 page not found" 404)))
      by (intros; apply http_Error_scripted).
    rewrite LoggerMiddleware_scripted. cbn [ending error_script steps].
    eexists _, 0. split; [reflexivity|]. now split.
  - unfold MethodNotAllowedHandler.
    rewrite (LoggerMiddleware_ext _
               (scripted (fun _ => error_script "" 405)))
      by (intros; apply http_Error_scripted).
    rewrite LoggerMiddleware_scripted. cbn [ending error_script steps].
    eexists _, 0. split; [reflexivity|]. now split.
Qed.

(** X9: the faulting route behind the chain.  For every request, the handler
    of [nil_pointer] panics before it writes anything; through the chain the
    request ends without a panic, the sink receives [WriteHeader(500)] and
    nothing else (no body), so the status sent is 500, and exactly one line
    is logged: the fault line with the path and the text of the run-time
    error. *)
Theorem nil_pointer_route_answers_500 :
  forall (r : Request) (s : World),
    in_flight s = None ->
    exists s',
      chain nil_pointer client r s = (Returned tt, s') /\
      sink s' = sink s ++ [SinkWriteHeader 500] /\
      sent_status [SinkWriteHeader 500] = 500 /\
      log_lines s'
      = log_lines s ++
        [RequestLogger.PanicString (fault_logger r)
           (any_error nil_dereference)] /\
      exists before,
        RequestLogger.PanicString (fault_logger r) (any_error nil_dereference)
        = before +:+ URL_Path r +:+ " " +:+ Red colors +:+ nil_dereference
          +:+ Reset colors.
Proof.
  intros r s N.
  rewrite (chain_ext nil_pointer
             (scripted (fun _ => {| steps := [];
                                    ending :=
                                      panics (any_error nil_dereference) |})))
    by (intros; apply nil_pointer_scripted).
  destruct (chain_sink
              (fun _ => {| steps := [];
                           ending := panics (any_error nil_dereference) |})
              r s N) as (s' & E & L & K & _).
  exists s'. split; [exact E|]. split; [exact K|]. split; [reflexivity|].
  split; [exact L|].
  rewrite PanicString_line.
  exists ("| " +:+ (color (fault_logger r) +:+
                    RequestLogger.pad (fault_logger r) 7
                      (VString (method (fault_logger r))) +:+ Reset colors)
          +:+ " | " +:+
          (color (fault_logger r) +:+ Itoa (status (fault_logger r)) +:+
           Reset colors) +:+ " |" +:+ Repeat " " 13 +:+ "| ").
  rewrite !append_assoc. reflexivity.
Qed.

Lemma nil_pointer_route_answers_500_witness :
  in_flight idle = None /\
  exists s',
    chain nil_pointer client get_nil_pointer idle = (Returned tt, s') /\
    sink s' = [SinkWriteHeader 500].
Proof.
  split; [reflexivity|].
  destruct (nil_pointer_route_answers_500 get_nil_pointer idle eq_refl)
    as (s' & E & K & _).
  exists s'. split; [exact E | exact K].
Defined.

(** X10: the writing route behind the chain.  For every request, the handler
    of [get_not_allowed] writes the body "Ok: " followed by the method and
    never calls [WriteHeader]; through the chain the sink receives that one
    [Write], the status sent is the default 200, and exactly one line is
    logged, a [String()] line with the status 200. *)
Theorem get_not_allowed_route_answers_200 :
  forall (r : Request) (s : World),
    in_flight s = None ->
    exists s' d,
      chain get_not_allowed client r s = (Returned tt, s') /\
      sink s' = sink s ++ [SinkWrite ("Ok: " +:+ Method r)] /\
      sent_status [SinkWrite ("Ok: " +:+ Method r)] = 200 /\
      log_lines s'
      = log_lines s ++
        [RequestLogger.String (populated (Method r) 200 (URL_Path r) d)].
Proof.
  intros r s N.
  rewrite (chain_ext get_not_allowed
             (scripted
                (fun r' => {| steps := [CallWrite ("Ok: " +:+ Method r')];
                              ending := returns |})))
    by (intros; apply get_not_allowed_scripted).
  destruct (chain_sink
              (fun r' => {| steps := [CallWrite ("Ok: " +:+ Method r')];
                            ending := returns |})
              r s N) as (s' & E & L & K & _).
  exists s', 0. split; [exact E|]. split; [exact K|]. split; [reflexivity|].
  exact L.
Qed.

Lemma get_not_allowed_route_answers_200_witness :
  in_flight idle = None /\
  exists s' d,
    chain get_not_allowed client {| Method := "POST"; URL_Path := "/x" |} idle
    = (Returned tt, s') /\
    sink s' = [SinkWrite "Ok: POST"] /\
    sent_status [SinkWrite "Ok: POST"] = 200 /\
    log_lines s' = [RequestLogger.String (populated "POST" 200 "/x" d)].
Proof.
  split; [reflexivity|].
  exact (get_not_allowed_route_answers_200
           {| Method := "POST"; URL_Path := "/x" |} idle eq_refl).
Defined.

(** ** More on the lifecycle controller *)

Section LifecycleMore.

Import Lifecycle.

Lemma run_events_snoc (evs : list Event) (e : Event) :
  run_events (evs ++ [e]) = step (run_events evs) e.
Proof. unfold run_events. now rewrite fold_left_app. Qed.

(** What the history must contain for the process to be shutting down or to
    have exited. *)
Lemma history_of_phase (evs : list Event) :
  match phase (run_events evs) with
  | ShuttingDown _ =>
      exists e1 e2, evs = e1 ++ Deliver SIGINT :: e2
  | Stopped _ =>
      exists e1 e2 e3 b,
        evs = e1 ++ Deliver SIGINT :: e2 ++ ShutdownReturned b :: e3
  | _ => True
  end.
Proof.
  induction evs as [|e evs IH] using rev_ind; [exact I|].
  rewrite run_events_snoc.
  destruct (shape_run_events evs) as [R T L B|R T L C|X|sg K N];
    destruct (run_events evs) as [td sv rl bf cx ou st];
    cbn [status_ todo relayed buffered ctx] in *; subst.
  - destruct e as [[]|err|b]; try exact I.
    + exists evs, []. reflexivity.
    + destruct sv; exact I.
  - cbn in IH. destruct IH as (e1 & e2 & ->).
    destruct e as [[]|err|b]; try exact I.
    + exists e1, (e2 ++ [Deliver SIGINT]). now rewrite <- app_assoc.
    + destruct sv; exists e1, (e2 ++ [ListenFailed err]);
        now rewrite <- app_assoc.
    + exists e1, e2, [], b. now rewrite <- app_assoc.
  - cbn in IH. destruct IH as (e1 & e2 & e3 & b & ->).
    cbn. exists e1, e2, (e3 ++ [e]), b.
    rewrite <- app_assoc. cbn [app]. now rewrite <- app_assoc.
  - exact I.
Qed.


(** A process ended by a signal was delivered that signal. *)
Lemma killed_by_delivery (evs : list Event) (sg : Signal) :
  status_ (run_events evs) = Killed sg -> In (Deliver sg) evs.
Proof.
  induction evs as [|e evs IH] using rev_ind; [discriminate|].
  rewrite run_events_snoc. intros K. apply in_or_app.
  destruct (shape_run_events evs) as [R T L B|R T L C|X|sg' K' N];
    destruct (run_events evs) as [td sv rl bf cx ou st];
    cbn [status_ todo relayed buffered ctx] in *; subst.
  - destruct e as [[]|err|b]; cbn in K; try discriminate K;
      try (injection K as <-; right; now left).
    destruct sv; discriminate K.
  - destruct e as [[]|err|b]; cbn in K; try discriminate K;
      try (injection K as <-; right; now left).
    destruct sv; discriminate K.
  - discriminate K.
  - cbn in K. left. now apply IH.
Qed.



End LifecycleMore.

(** X11: the exit code 0 is reached only through the graceful path.  Over
    every history of events, if the process has ended with an exit code, then
    either the code is 0, [main] called [os.Exit] and the history contains
    the delivery of SIGINT and, after it, the return of [Shutdown]; or the
    code is 2 and SIGQUIT was delivered, which the Go runtime answers by
    exiting with that status.  If the process is shutting down, SIGINT was
    delivered. *)
Theorem exit_needs_interrupt_then_shutdown :
  forall evs : list Lifecycle.Event,
    (forall code,
       exit_code (Lifecycle.run_events evs) = Some code ->
       (code = 0 /\
        Lifecycle.phase (Lifecycle.run_events evs) = Lifecycle.Stopped 0 /\
        exists e1 e2 e3 b,
          evs = e1 ++ Lifecycle.Deliver Lifecycle.SIGINT :: e2 ++
                Lifecycle.ShutdownReturned b :: e3) \/
       (code = 2 /\
        Lifecycle.phase (Lifecycle.run_events evs)
        = Lifecycle.Terminated Lifecycle.SIGQUIT /\
        In (Lifecycle.Deliver Lifecycle.SIGQUIT) evs)) /\
    (forall t,
       Lifecycle.phase (Lifecycle.run_events evs) = Lifecycle.ShuttingDown t ->
       exists e1 e2, evs = e1 ++ Lifecycle.Deliver Lifecycle.SIGINT :: e2).
Proof.
  intros evs. pose proof (history_of_phase evs) as H. split.
  - intros code E. unfold exit_code in E.
    destruct (shape_run_events evs) as [R T L B|R T L C|X|sg K N].
    + rewrite R in E. discriminate E.
    + rewrite R in E. discriminate E.
    + rewrite X in E. injection E as <-. left.
      rewrite (phase_exited _ _ X) in H.
      split; [reflexivity|]. split; [now apply phase_exited | exact H].
    + rewrite K in E. right.
      destruct sg; try discriminate E. injection E as <-.
      split; [reflexivity|].
      split; [now apply phase_killed | now apply killed_by_delivery].
  - intros t E. rewrite E in H. exact H.
Qed.

Lemma exit_needs_interrupt_then_shutdown_witness :
  let evs :=
    [ Lifecycle.ListenFailed "address already in use";
      Lifecycle.Deliver Lifecycle.SIGINT;
      Lifecycle.ShutdownReturned true ] in
  exit_code (Lifecycle.run_events evs) = Some 0 /\
  ((0 = 0 /\
    Lifecycle.phase (Lifecycle.run_events evs) = Lifecycle.Stopped 0 /\
    exists e1 e2 e3 b,
      evs = e1 ++ Lifecycle.Deliver Lifecycle.SIGINT :: e2 ++
            Lifecycle.ShutdownReturned b :: e3) \/
   (0 = 2 /\
    Lifecycle.phase (Lifecycle.run_events evs)
    = Lifecycle.Terminated Lifecycle.SIGQUIT /\
    In (Lifecycle.Deliver Lifecycle.SIGQUIT) evs)).
Proof.
  intros evs. split; [reflexivity|].
  exact (proj1 (exit_needs_interrupt_then_shutdown evs) 0 eq_refl).
Defined.

Example exit_after_interrupt :
  exit_code
    (Lifecycle.run_events
       [ Lifecycle.ListenFailed "address already in use";
         Lifecycle.Deliver Lifecycle.SIGINT;
         Lifecycle.ShutdownReturned true ]) = Some 0.
Proof. reflexivity. Qed.

Example exit_on_quit :
  exit_code (Lifecycle.run_events [Lifecycle.Deliver Lifecycle.SIGQUIT])
  = Some 2 /\
  exit_code (Lifecycle.run_events [Lifecycle.Deliver Lifecycle.SIGTERM])
  = None.
Proof. split; reflexivity. Qed.



Example controller_log_with_failed_listener :
  Lifecycle.out
    (Lifecycle.run_events
       [ Lifecycle.ListenFailed "address already in use";
         Lifecycle.ListenFailed "again";
         Lifecycle.Deliver Lifecycle.SIGINT;
         Lifecycle.ShutdownReturned false ])
  = [ "| Listening at port :8000"; "address already in use";
      "| Shutting down" ].
Proof. reflexivity. Qed.

(** X13: a second interrupt does not hurry the shutdown.  Over every
    history, while the process is shutting down a further SIGINT changes
    neither its phase nor its log, and the return of [Shutdown] still ends
    it with code 0; any other signal ends it at once; and once the process
    has exited or was ended by a signal, no event changes it. *)
Theorem shutdown_ignores_further_interrupts :
  forall (evs : list Lifecycle.Event) (e : Lifecycle.Event),
    (forall t,
       Lifecycle.phase (Lifecycle.run_events evs) = Lifecycle.ShuttingDown t ->
       Lifecycle.phase
         (Lifecycle.step (Lifecycle.run_events evs)
            (Lifecycle.Deliver Lifecycle.SIGINT))
       = Lifecycle.ShuttingDown t /\
       Lifecycle.out
         (Lifecycle.step (Lifecycle.run_events evs)
            (Lifecycle.Deliver Lifecycle.SIGINT))
       = Lifecycle.out (Lifecycle.run_events evs) /\
       (forall b,
          Lifecycle.phase
            (Lifecycle.step
               (Lifecycle.step (Lifecycle.run_events evs)
                  (Lifecycle.Deliver Lifecycle.SIGINT))
               (Lifecycle.ShutdownReturned b))
          = Lifecycle.Stopped 0) /\
       (forall sg,
          sg <> Lifecycle.SIGINT ->
          Lifecycle.phase
            (Lifecycle.step (Lifecycle.run_events evs) (Lifecycle.Deliver sg))
          = Lifecycle.Terminated sg)) /\
    ((exists code,
        Lifecycle.phase (Lifecycle.run_events evs) = Lifecycle.Stopped code) \/
     (exists sg,
        Lifecycle.phase (Lifecycle.run_events evs) = Lifecycle.Terminated sg) ->
     Lifecycle.step (Lifecycle.run_events evs) e = Lifecycle.run_events evs).
Proof.
  intros evs e.
  destruct (shape_run_events evs) as [R T L B|R T L C|X|sg K N];
    destruct (Lifecycle.run_events evs) as [td sv rl bf cx ou st];
    cbn [Lifecycle.status_ Lifecycle.todo Lifecycle.relayed
         Lifecycle.buffered Lifecycle.ctx] in *; subst; split.
  - intros t E. discriminate E.
  - intros [[code E]|[sg E]]; discriminate E.
  - intros t E. injection E as <-. repeat split.
    intros sg N. destruct sg; try reflexivity. now destruct N.
  - intros [[code E]|[sg E]]; discriminate E.
  - intros t E. discriminate E.
  - reflexivity.
  - intros t E. discriminate E.
  - reflexivity.
Qed.

Lemma shutdown_ignores_further_interrupts_witness :
  let p := Lifecycle.run_events [Lifecycle.Deliver Lifecycle.SIGINT] in
  Lifecycle.phase p = Lifecycle.ShuttingDown (Some 15000000000) /\
  Lifecycle.phase (Lifecycle.step p (Lifecycle.Deliver Lifecycle.SIGINT))
  = Lifecycle.ShuttingDown (Some 15000000000).
Proof.
  intros p. split; [reflexivity|].
  exact (proj1 (proj1 (shutdown_ignores_further_interrupts
                         [Lifecycle.Deliver Lifecycle.SIGINT]
                         (Lifecycle.Deliver Lifecycle.SIGINT))
                  (Some 15000000000) eq_refl)).
Defined.

(** ** The earlier versions of the program *)


(** X15: the lines of the first version.  [String()] is the method padded to
    7, the status in decimal, the elapsed time padded to 12 and the path,
    all plain, between the bars; [PanicString] is the padded method, the
    path and the description of the caught value (the message of an error,
    [Unknown] otherwise), with no status and no elapsed column.  The
    [String()] line of the second version is that line with the colour and
    reset markers put around the method column and around the status. *)
Theorem first_version_lines :
  forall (rl : RequestLogger) (err : Any),
    V1.String (uncoloured rl)
    = "| " +:+ V1.GetMethod (uncoloured rl) +:+
      " | " +:+ Itoa (status rl) +:+
      " | " +:+ V1.GetSince (uncoloured rl) +:+
      " | " +:+ path rl /\
    V1.PanicString (uncoloured rl) err
    = "| " +:+ V1.GetMethod (uncoloured rl) +:+
      " | " +:+ path rl +:+ " | " +:+ description err /\
    RequestLogger.String rl
    = "| " +:+ (color rl +:+ V1.GetMethod (uncoloured rl) +:+ Reset colors)
      +:+ " | " +:+ (color rl +:+ Itoa (status rl) +:+ Reset colors) +:+
      " | " +:+ V1.GetSince (uncoloured rl) +:+
      " | " +:+ path rl /\
    V1.GetMethod (uncoloured rl)
    = RequestLogger.pad rl 7 (VString (method rl)) /\
    V1.GetSince (uncoloured rl)
    = RequestLogger.pad rl 12 (VDuration (since rl)).
Proof.
  intros rl err. split; [|split; [|split; [|split]]].
  - unfold V1.String.
    cbn [Sprintf_values format_operand Ascii.eqb Bool.eqb
         Sprintf_values_extra V1.GetStatus V1.GetPath uncoloured V1.status
         V1.path].
    rewrite append_empty_r. reflexivity.
  - assert (E : V1.PanicString (uncoloured rl) err
                = Sprintf_values "| %s | %s | %s"
                    [ VString (V1.GetMethod (uncoloured rl));
                      VString (V1.GetPath (uncoloured rl));
                      VString (description err) ])
      by (destruct err; reflexivity).
    rewrite E.
    cbn [Sprintf_values format_operand Ascii.eqb Bool.eqb
         Sprintf_values_extra V1.GetPath uncoloured V1.path].
    rewrite append_empty_r. reflexivity.
  - apply String_line.
  - reflexivity.
  - reflexivity.
Qed.

Example first_version_String :
  V1.String (uncoloured (populated "GET" 200 "/" 1500000))
  = "| GET     | 200 | 1.5ms        | /".
Proof. reflexivity. Qed.

(** X16: the rewrite with colours changed the text of the log lines and
    nothing else.  Around any handler the chain of the first version and the
    chain of the second give the same outcome and leave the same calls on
    the sink, the same observer cells and the same clock, and they log the
    same number of lines. *)
Theorem first_version_chain_same_effects :
  forall (next : Handler) (r : Request) (s : World),
    fst (V1.chain next client r s) = fst (chain next client r s) /\
    sink (snd (V1.chain next client r s))
    = sink (snd (chain next client r s)) /\
    recorders (snd (V1.chain next client r s))
    = recorders (snd (chain next client r s)) /\
    clock (snd (V1.chain next client r s))
    = clock (snd (chain next client r s)) /\
    in_flight (snd (V1.chain next client r s))
    = in_flight (snd (chain next client r s)) /\
    length (log_lines (snd (V1.chain next client r s)))
    = length (log_lines (snd (chain next client r s))).
Proof.
  intros next r s.
  unfold V1.chain, chain, Use. cbn [fold_right].
  unfold V1.RecoveryMiddleware, RecoveryMiddleware, V1.LoggerMiddleware,
    LoggerMiddleware, defer_, bind, time_Now, ResponseRecorderWriter.new,
    recover.
  destruct (next _ r _) as [[[]|v] s2].
  - unfold ResponseRecorderWriter.Status, time_Since, log_Println.
    cbn [in_flight set_log set_in_flight log_lines].
    destruct (in_flight s2) as [[|msg|repr]|];
      unfold ret;
      cbn [fst snd sink recorders clock in_flight log_lines set_log
           set_sink set_in_flight client WriteHeader];
      rewrite ?length_app; repeat split.
  - unfold log_Println.
    destruct v as [|msg|repr];
      unfold ret;
      cbn [fst snd sink recorders clock in_flight log_lines set_log
           set_sink set_in_flight client WriteHeader];
      rewrite ?length_app; repeat split.
Qed.

Example first_version_chain_on_nil_pointer :
  log_lines (snd (V1.chain nil_pointer client get_nil_pointer idle))
  = [ "| GET     | /nil_pointer | " +:+ nil_dereference ].
Proof. reflexivity. Qed.
